(** * Sparse W16A16 linear method and model loader of vLLM (neuralmagic fork)

    A shallow embedding of
    - [vllm/model_executor/layers/sparsity/sparse_w16a16_linear_method.py]
      (class [SparseW16A16LinearMethod]: [create_weights], [apply_weights]);
    - [vllm/model_executor/model_loader.py]
      ([_set_default_torch_dtype], [_get_model_architecture], [get_model]).

    Python exceptions are values of [PyError]; a call that may raise returns
    a [result].  Tensors are seen through their shape and their row-major
    contents over an abstract scalar type: element type, device and memory
    layout are not part of the model, so [.to(dtype)], [.to(device)] and
    [.contiguous()] are the identity on it. *)

From stdpp Require Import base option list gmap strings.
From Stdlib Require Import ZArith Lia.

Local Open Scope string_scope.
Local Open Scope nat_scope.
Local Open Scope list_scope.

(** ** Python exceptions and fallible computations *)

Inductive GateKind := Quantization | Sparsity.

Inductive TorchDtype := Float16 | BFloat16 | Float32 | Float64.

Global Instance TorchDtype_eq_dec : EqDecision TorchDtype.
Proof. solve_decision. Defined.

Global Instance GateKind_eq_dec : EqDecision GateKind.
Proof. solve_decision. Defined.

(** The messages of the [ValueError]s raised by the model loader, with the
    values the f-strings interpolate kept as data. *)
Inductive Message :=
| ArchitecturesNotSupported (architectures supported : list string)
| MethodNotSupportedForGPU (kind : GateKind) (method : string)
                           (min_capability current : Z)
| DtypeNotSupported (kind : GateKind) (dtype : TorchDtype) (method : string)
                    (supported_dtypes : list TorchDtype)
| LoRANotSupported (model_class_name : string).

Inductive PyError :=
| AssertionError
| AttributeError (attr : string)
| KeyError (key : string)
| IndexError
| TypeError
| ZeroDivisionError
| RuntimeError (what : string)
| ValueError (msg : Message)
| ExternalError (what : string).

Inductive result (A : Type) :=
| Ok (a : A)
| Raise (e : PyError).
Arguments Ok {A} a.
Arguments Raise {A} e.

Global Instance result_ret : MRet result := @Ok.
Global Instance result_bind : MBind result := fun A B f m =>
  match m with
  | Ok a => f a
  | Raise e => Raise e
  end.

(** [assert c] *)
Definition py_assert (c : bool) : result unit :=
  if c then Ok tt else Raise AssertionError.

(** [d[key]] on a dict with string keys *)
Definition getitem {V} (d : gmap string V) (key : string) : result V :=
  match d !! key with
  | Some v => Ok v
  | None => Raise (KeyError key)
  end.

(** ** Tensors *)

Class Scalar (R : Type) := {
  szero : R;
  sadd : R → R → R;
  smul : R → R → R
}.

Record Tensor (R : Type) := mkTensor {
  shape : list nat;
  data : list R
}.
Arguments mkTensor {R} shape data.
Arguments shape {R} t.
Arguments data {R} t.

(** Number of elements of a shape. *)
Definition numel (s : list nat) : nat := foldr Nat.mul 1 s.

(** [s[i]] on a shape tuple *)
Definition shape_index (s : list nat) (i : nat) : result nat :=
  match s !! i with
  | Some n => Ok n
  | None => Raise IndexError
  end.

(** [s[-1]] on a shape tuple *)
Definition shape_last (s : list nat) : result nat :=
  match last s with
  | Some n => Ok n
  | None => Raise IndexError
  end.

(** Row-major contents of a [rows] by [cols] matrix given entry by entry. *)
Definition table {A} (rows cols : nat) (f : nat → nat → A) : list A :=
  i ← seq 0 rows; j ← seq 0 cols; [f i j].

Section Tensors.
Context {R : Type} {SR : Scalar R}.

Definition wf_tensor (t : Tensor R) : Prop :=
  length (data t) = numel (shape t).

(** [torch.zeros(s)] *)
Definition torch_zeros (s : list nat) : Tensor R :=
  mkTensor s (replicate (numel s) szero).

(** [t.reshape(s)] for a shape without [-1] *)
Definition reshape (t : Tensor R) (s : list nat) : result (Tensor R) :=
  if numel s =? numel (shape t) then Ok (mkTensor s (data t))
  else Raise (RuntimeError "shape is invalid for input size").

(** [t.reshape(-1, n)]: the first dimension is inferred; torch refuses to
    infer it when [n] is 0. *)
Definition reshape_rows (t : Tensor R) (n : nat) : result (Tensor R) :=
  if n =? 0 then Raise (RuntimeError "unspecified dimension is ambiguous")
  else if numel (shape t) `mod` n =? 0
       then Ok (mkTensor [numel (shape t) `div` n; n] (data t))
       else Raise (RuntimeError "shape is invalid for input size").

(** Entry [i] of row-major contents (zero outside them). *)
Definition entry (d : list R) (i : nat) : R := default szero (d !! i).

(** Row [i] of row-major contents with rows of [k] elements. *)
Definition row (k i : nat) (d : list R) : list R := take k (drop (i * k) d).

Definition dot (u v : list R) : R := foldr sadd szero (zip_with smul u v).

(** The bias of [F.linear] as one value per output feature: a vector of
    [out] elements or a 0-dimensional tensor. *)
Definition bias_values (out : nat) (b : Tensor R) : result (list R) :=
  match shape b with
  | [] => Ok (replicate out (default szero (head (data b))))
  | [n] => if n =? out then Ok (data b)
           else Raise (RuntimeError "bias size does not match")
  | _ => Raise (RuntimeError "bias size does not match")
  end.

(** [torch.nn.functional.linear(x, weight, bias)] for a dense 2-D weight of
    shape [(out, in)]: entry [(i, j)] of the result is the dot product of
    row [i] of [x] and row [j] of [weight], plus [bias[j]] when a bias is
    given.  The layers of this development only build 2-D weights. *)
Definition F_linear (x weight : Tensor R) (bias : option (Tensor R))
  : result (Tensor R) :=
  match shape weight with
  | [out; inn] =>
      n ← shape_last (shape x);
      if negb (n =? inn)
      then Raise (RuntimeError "mat1 and mat2 shapes cannot be multiplied")
      else
        let m := numel (removelast (shape x)) in
        let cell i j := dot (row inn i (data x)) (row inn j (data weight)) in
        match bias with
        | None =>
            Ok (mkTensor (removelast (shape x) ++ [out]) (table m out cell))
        | Some b =>
            bs ← bias_values out b;
            Ok (mkTensor (removelast (shape x) ++ [out])
                  (table m out (λ i j, sadd (cell i j) (entry bs j))))
        end
  | _ => Raise (RuntimeError "weight must be a matrix")
  end.

(** [t.t()] on a matrix *)
Definition transpose (t : Tensor R) : result (Tensor R) :=
  match shape t with
  | [r; c] =>
      Ok (mkTensor [c; r] (table c r (λ j i, entry (data t) (i * c + j))))
  | _ => Raise (RuntimeError "t() expects a matrix")
  end.

(** [x @ b] for a matrix [b] of shape [(k, n)]: entry [(i, j)] is the sum
    over [l] of [x[i, l] * b[l, j]]. *)
Definition matmul (x b : Tensor R) : result (Tensor R) :=
  match shape b with
  | [k; n] =>
      k' ← shape_last (shape x);
      if negb (k' =? k)
      then Raise (RuntimeError "mat1 and mat2 shapes cannot be multiplied")
      else
        let m := numel (removelast (shape x)) in
        Ok (mkTensor (removelast (shape x) ++ [n])
              (table m n (λ i j,
                 foldr sadd szero
                   ((λ l, smul (entry (data x) (i * k + l))
                               (entry (data b) (l * n + j))) <$> seq 0 k))))
  | _ => Raise (RuntimeError "mat2 must be a matrix")
  end.

(** [t + bias] with [bias] broadcast along the last dimension. *)
Definition add_bias (t : Tensor R) (bias : option (Tensor R))
  : result (Tensor R) :=
  match bias with
  | None => Ok t
  | Some b =>
      n ← shape_last (shape t);
      bs ← bias_values n b;
      Ok (mkTensor (shape t)
            (table (numel (removelast (shape t))) n
               (λ i j, sadd (entry (data t) (i * n + j)) (entry bs j))))
  end.

(** The dense linear transform in the words of the specification:
    [input @ weightᵗ + bias]. *)
Definition dense_linear_transform (input weight : Tensor R)
    (bias : option (Tensor R)) : result (Tensor R) :=
  wt ← transpose weight;
  y ← matmul input wt;
  add_bias y bias.
End Tensors.

(** ** The magic_wand package *)

(** The storage format classes ([Type[CompressedStorageFormat]]).  The
    linear method tells two of them apart by class identity; any other
    subclass of [CompressedStorageFormat] is named by its class name. *)
Inductive StorageFormatCls :=
| SparseSemiStructuredStorageFormat
| SparseBEGemmStorageFormat
| OtherStorageFormat (class_name : string).

Global Instance StorageFormatCls_eq_dec : EqDecision StorageFormatCls.
Proof. solve_decision. Defined.

(** The compressed representations and the kernels that consume them are
    opaque: a compressed payload, the torch sparse tensor that a
    semi-structured payload encapsulates, [F.linear] on such a sparse weight
    (the structured-sparse matmul), [magic_wand.ops.be_ds_gemm] and
    [decompress()].  Each of them may raise. *)
Class MagicWand (R : Type) := {
  CompressedData : Type;
  SparseTensor : Type;
  encapsulated_torch_sparse_tensor : CompressedData → result SparseTensor;
  sparse_shape : SparseTensor → list nat;
  F_linear_sparse : Tensor R → SparseTensor → Tensor R → result (Tensor R);
  be_ds_gemm : Tensor R → CompressedData → result (Tensor R);
  decompress : CompressedData → result (Tensor R)
}.

Section SemiStructured.
Context {R : Type} {SR : Scalar R}.

(** Modelled from the spec: [magic_wand.semi_structured.pad_tensor_to_multiple]
    is not part of the sources.  It extends a matrix to the next multiple
    of [multiple] rows by appending zero rows and returns the padded
    matrix with the range of valid rows. *)
Definition pad_tensor_to_multiple (t : Tensor R) (multiple : nat)
  : result (Tensor R * (nat * nat)) :=
  match shape t with
  | [rows; cols] =>
      if multiple =? 0 then Raise ZeroDivisionError
      else
        let padded_rows := (rows + multiple - 1) `div` multiple * multiple in
        Ok (mkTensor [padded_rows; cols]
              (data t ++ replicate ((padded_rows - rows) * cols) szero),
            (0, rows))
  | _ => Raise IndexError
  end.

(** Modelled from the spec: [magic_wand.semi_structured.extract_valid_rows]
    is not part of the sources.  It keeps the rows of the recorded valid
    range, as the slice [t[lo:hi, :]] does. *)
Definition extract_valid_rows (t : Tensor R) (valid_rows_range : nat * nat)
  : result (Tensor R) :=
  match shape t with
  | [rows; cols] =>
      let lo := fst valid_rows_range `min` rows in
      let hi := snd valid_rows_range `min` rows in
      Ok (mkTensor [hi - lo; cols]
            (take ((hi - lo) * cols) (drop (lo * cols) (data t))))
  | _ => Raise IndexError
  end.
End SemiStructured.

(** ** [vllm.model_executor.layers] *)

(** Modelled from the spec: [SparsityConfig]
    ([vllm/model_executor/layers/sparsity/base_config.py]) is not part of
    the sources; it exposes a minimum accelerator capability and the
    supported activation dtypes. *)
Record SparsityConfig := {
  sc_min_capability : Z;
  sc_supported_act_dtypes : list TorchDtype
}.

Section Linear.
Context {R : Type} {SR : Scalar R} {MW : MagicWand R}.

(** Modelled from the spec: [LazyCompressedParameter]
    ([vllm/model_executor/layers/parameters.py]) is not part of the
    sources.  It has the logical shape and dtype of the weight, the
    storage format class, the [compress_transposed] flag, the attributes
    set on it, and the two payload slots the linear method reads:
    [uncompressed_data] and [compressed_data] (each may be [None]). *)
Record LazyCompressedParameter := {
  w_shape : list nat;
  w_dtype : TorchDtype;
  w_storage_format_cls : StorageFormatCls;
  compress_transposed : bool;
  uncompressed_data : option (Tensor R);
  compressed_data : option CompressedData;
  w_attrs : gmap string nat
}.

Definition has_uncompressed_data (w : LazyCompressedParameter) : bool :=
  bool_decide (is_Some (uncompressed_data w)).

Definition has_compressed_data (w : LazyCompressedParameter) : bool :=
  bool_decide (is_Some (compressed_data w)).

(** The three payload states of the data model. *)
Definition payload_empty (w : LazyCompressedParameter) : Prop :=
  uncompressed_data w = None ∧ compressed_data w = None.
Definition payload_uncompressed (w : LazyCompressedParameter)
    (d : Tensor R) : Prop :=
  uncompressed_data w = Some d ∧ compressed_data w = None.
Definition payload_compressed (w : LazyCompressedParameter)
    (c : CompressedData) : Prop :=
  uncompressed_data w = None ∧ compressed_data w = Some c.

(** Modelled from the spec: the constructor of [LazyCompressedParameter];
    a new parameter has the shape and dtype of the tensor it is built
    from and no data yet. *)
Definition new_LazyCompressedParameter (shp : list nat) (dtype : TorchDtype)
    (storage_format_cls : StorageFormatCls) (transposed : bool)
  : LazyCompressedParameter :=
  {| w_shape := shp; w_dtype := dtype;
     w_storage_format_cls := storage_format_cls;
     compress_transposed := transposed;
     uncompressed_data := None; compressed_data := None;
     w_attrs := ∅ |}.

(** Modelled from the spec: [set_weight_attrs]
    ([vllm/model_executor/layers/linear.py]) is not part of the sources;
    it sets the given attributes on the weight. *)
Definition set_weight_attrs (w : LazyCompressedParameter)
    (attrs : gmap string nat) : LazyCompressedParameter :=
  {| w_shape := w_shape w; w_dtype := w_dtype w;
     w_storage_format_cls := w_storage_format_cls w;
     compress_transposed := compress_transposed w;
     uncompressed_data := uncompressed_data w;
     compressed_data := compressed_data w;
     w_attrs := attrs ∪ w_attrs w |}.

Record SparseW16A16LinearMethod := {
  sparsity_config : SparsityConfig;
  storage_format_cls : StorageFormatCls
}.

(** [torch.empty] allocates without initialising: the parameter takes
    the shape and the dtype of the tensor it is built from. *)
Definition create_weights (self : SparseW16A16LinearMethod)
    (input_size_per_partition output_size_per_partition : nat)
    (input_size output_size : nat) (params_dtype : TorchDtype)
  : gmap string LazyCompressedParameter :=
  let supports_linear :=
    bool_decide (storage_format_cls self ≠ SparseBEGemmStorageFormat) in
  let weight :=
    new_LazyCompressedParameter
      [output_size_per_partition; input_size_per_partition] params_dtype
      (storage_format_cls self)
      (negb supports_linear) in
  let weight :=
    set_weight_attrs weight {[ "input_dim" := 1; "output_dim" := 0 ]} in
  {[ "weight" := weight ]}.

(** The shape of the matrix that is compressed: the loader compresses the
    transpose of the weight when [compress_transposed] is set. *)
Definition payload_shape (w : LazyCompressedParameter) : list nat :=
  if compress_transposed w then reverse (w_shape w) else w_shape w.

(** A weight of logical shape [(rows, cols)] as a layer of this linear
    method holds it: built by [create_weights], which fixes
    [compress_transposed] from the storage format class, then populated
    with a dense matrix of that shape or with the compressed form of that
    matrix (of its transpose when [compress_transposed] is set). *)
Record wf_weight (self : SparseW16A16LinearMethod)
    (w : LazyCompressedParameter) (rows cols : nat) : Prop := {
  wf_shape : w_shape w = [rows; cols];
  wf_transposed :
    compress_transposed w =
      negb (bool_decide
              (storage_format_cls self ≠ SparseBEGemmStorageFormat));
  wf_uncompressed :
    ∀ d, uncompressed_data w = Some d → shape d = [rows; cols];
  wf_encapsulated :
    ∀ c s, compressed_data w = Some c →
           encapsulated_torch_sparse_tensor c = Ok s →
           sparse_shape s = payload_shape w;
  wf_decompressed :
    ∀ c d, compressed_data w = Some c → decompress c = Ok d →
           shape d = payload_shape w
}.

(** [w.compressed_data.attr]: the attribute access fails on [None]. *)
Definition the_compressed_data (w : LazyCompressedParameter)
  : result CompressedData :=
  match compressed_data w with
  | Some c => Ok c
  | None => Raise (AttributeError "compressed_data is None")
  end.

Definition the_uncompressed_data (w : LazyCompressedParameter)
  : result (Tensor R) :=
  match uncompressed_data w with
  | Some d => Ok d
  | None => Raise (AttributeError "uncompressed_data is None")
  end.

Definition apply_weights (self : SparseW16A16LinearMethod)
    (weights : gmap string LazyCompressedParameter)
    (x : Tensor R) (bias : option (Tensor R)) : result (Tensor R) :=
  w ← getitem weights "weight";
  if has_uncompressed_data w then
    _ ← py_assert (negb (has_compressed_data w));
    d ← the_uncompressed_data w;
    F_linear x d bias
  else if bool_decide
            (storage_format_cls self = SparseSemiStructuredStorageFormat) then
    _ ← py_assert (bool_decide (bias = None));
    c ← the_compressed_data w;
    w_encap ← encapsulated_torch_sparse_tensor c;
    n ← shape_index (sparse_shape w_encap) 0;
    let out_shape := removelast (shape x) ++ [n] in
    k ← shape_last (shape x);
    x2 ← reshape_rows x k;
    '(reshaped_x, valid_rows_range) ← pad_tensor_to_multiple x2 8;
    output ← F_linear_sparse reshaped_x w_encap (torch_zeros [n]);
    output ← extract_valid_rows output valid_rows_range;
    reshape output out_shape
  else if bool_decide
            (storage_format_cls self = SparseBEGemmStorageFormat) then
    _ ← py_assert (bool_decide (bias = None));
    _ ← py_assert (compress_transposed w);
    n ← shape_index (w_shape w) 0;
    let out_shape := removelast (shape x) ++ [n] in
    k ← shape_last (shape x);
    reshaped_x ← reshape_rows x k;
    y ← match compressed_data w with
        | Some c => be_ds_gemm reshaped_x c
        | None => Raise TypeError
        end;
    reshape y out_shape
  else
    _ ← py_assert (negb (compress_transposed w));
    c ← the_compressed_data w;
    d ← decompress c;
    F_linear x d bias.
End Linear.


(** ** [vllm/model_executor/model_loader.py] *)

Record PretrainedConfig := {
  architectures : option (list string)
}.

Record ModelConfig := {
  hf_config : PretrainedConfig;
  model : string;
  download_dir : option string;
  load_format : string;
  revision : option string;
  dtype : TorchDtype;
  quantization : option string;
  sparsity : option string
}.

Section Loader.
(** The types of the collaborators' values: linear methods, LoRA
    configurations, model classes and model instances. *)
Context {LinearMethod LoRAConfig ModelClass Model : Type}.

(** What [get_model] reads of a quantization or sparsity configuration. *)
Record MethodConfig := {
  get_min_capability : Z;
  get_supported_act_dtypes : list TorchDtype;
  get_linear_method : LinearMethod
}.

(** The calls [get_model] makes to its collaborators, in the order it
    makes them. *)
Inductive Call :=
| CallLoadModelCls (arch : string)
| CallGetSupportedArchs
| CallGetQuantConfig (method : string)
| CallGetSparseConfig (method : string)
| CallGetDeviceCapability
| CallModelClass (cls : ModelClass) (linear_method : option LinearMethod)
                 (lora_config : option (option LoRAConfig))
| CallInitializeDummyWeights
| CallLoadWeights.

(** The process-wide state: torch's default dtype and default device, and
    the calls made so far (oldest first). *)
Record World := {
  default_dtype : TorchDtype;
  default_device : string;
  calls : list Call
}.

(** The collaborators: the model registry, the configuration loader, the
    accelerator, the model classes and the weight loader.  They do not
    touch the default dtype or device; a model class sees them when it is
    instantiated. *)
Record Env := {
  load_model_cls : string → option ModelClass;
  get_supported_archs : list string;
  get_quant_config :
    string → string → PretrainedConfig → option string → result MethodConfig;
  get_sparse_config :
    string → string → PretrainedConfig → option string → result MethodConfig;
  get_device_capability : result (Z * Z);
  class_name : ModelClass → string;
  supports_lora : ModelClass → option bool;
  instantiate :
    ModelClass → TorchDtype → string → PretrainedConfig →
    option LinearMethod → option (option LoRAConfig) → result Model;
  initialize_dummy_weights : Model → result Model;
  load_weights :
    Model → string → option string → string → option string → result Model;
  eval : Model → Model
}.

(** Computations over the process-wide state that may raise. *)
Definition M (A : Type) : Type := World → World * result A.

Global Instance M_ret : MRet M := fun A a st => (st, Ok a).
Global Instance M_bind : MBind M := fun A B f m st =>
  match m st with
  | (st', Ok a) => f a st'
  | (st', Raise e) => (st', Raise e)
  end.

Definition raise {A} (e : PyError) : M A := fun st => (st, Raise e).

Definition lift {A} (r : result A) : M A := fun st => (st, r).

Definition record_calls (st : World) (cs : list Call) : World :=
  {| default_dtype := default_dtype st;
     default_device := default_device st;
     calls := calls st ++ cs |}.

Definition call (c : Call) : M unit := fun st => (record_calls st [c], Ok tt).

(** The calls that build a model or its weights, and the calls that read
    the accelerator capability (one per evaluated gate). *)
Definition is_build_call (c : Call) : bool :=
  match c with
  | CallModelClass _ _ _ | CallInitializeDummyWeights | CallLoadWeights => true
  | _ => false
  end.

Definition is_capability_call (c : Call) : bool :=
  match c with
  | CallGetDeviceCapability => true
  | _ => false
  end.

Definition is_registry_call (c : Call) : bool :=
  match c with
  | CallLoadModelCls _ | CallGetSupportedArchs => true
  | _ => false
  end.

Definition is_sparse_config_call (c : Call) : bool :=
  match c with
  | CallGetSparseConfig _ => true
  | _ => false
  end.

Definition gate_evaluations (cs : list Call) : nat :=
  length (filter (λ c, is_capability_call c = true) cs).

(** A configuration passes the gate: the capability ordinal reaches its
    minimum and the model dtype is among its activation dtypes. *)
Definition gate_passes (capability : Z) (dt : TorchDtype)
    (config : MethodConfig) : Prop :=
  (get_min_capability config ≤ capability)%Z ∧
  dt ∈ get_supported_act_dtypes config.

Definition torch_get_default_dtype : M TorchDtype := fun st =>
  (st, Ok (default_dtype st)).

Definition torch_set_default_dtype (d : TorchDtype) : M unit := fun st =>
  ({| default_dtype := d;
      default_device := default_device st;
      calls := calls st |}, Ok tt).

Definition torch_get_default_device : M string := fun st =>
  (st, Ok (default_device st)).

Definition torch_set_default_device (d : string) : M unit := fun st =>
  ({| default_dtype := default_dtype st;
      default_device := d;
      calls := calls st |}, Ok tt).

(** A generator decorated with [@contextlib.contextmanager]: the code up
    to [yield], whose local variables [S] stay in the generator's frame,
    and the code after it. *)
Record GeneratorContextManager (S : Type) := {
  before_yield : M S;
  after_yield : S → M unit
}.
Arguments before_yield {S} g.
Arguments after_yield {S} g.

(** [with g: body].  When the body raises, the exception is thrown into
    the generator at its [yield]; the generators here have no [try]
    around it, so the code after [yield] does not run and the exception
    propagates. *)
Definition with_generator {S A} (g : GeneratorContextManager S)
    (body : M A) : M A := fun st =>
  match before_yield g st with
  | (st1, Raise e) => (st1, Raise e)
  | (st1, Ok frame) =>
      match body st1 with
      | (st2, Raise e) => (st2, Raise e)
      | (st2, Ok a) =>
          match after_yield g frame st2 with
          | (st3, Raise e) => (st3, Raise e)
          | (st3, Ok _) => (st3, Ok a)
          end
      end
  end.

(** [with torch.device(d): body]: the device context restores the
    previous default device in its [__exit__], on both paths. *)
Definition with_torch_device {A} (d : string) (body : M A) : M A := fun st =>
  match (old ← torch_get_default_device; _ ← torch_set_default_device d;
         mret old) st with
  | (st1, Raise e) => (st1, Raise e)
  | (st1, Ok old) =>
      match body st1 with
      | (st2, r) => (fst (torch_set_default_device old st2), r)
      end
  end.

Definition _set_default_torch_dtype (dtype : TorchDtype)
  : GeneratorContextManager TorchDtype :=
  {| before_yield :=
       old_dtype ← torch_get_default_dtype;
       _ ← torch_set_default_dtype dtype;
       mret old_dtype;
     after_yield := fun old_dtype => torch_set_default_dtype old_dtype |}.

Section WithEnv.
Variable env : Env.

(** The [for] loop of [_get_model_architecture]. *)
Fixpoint find_model_cls (archs : list string) : M (option ModelClass) :=
  match archs with
  | [] => mret None
  | arch :: rest =>
      _ ← call (CallLoadModelCls arch);
      match load_model_cls env arch with
      | Some model_cls => mret (Some model_cls)
      | None => find_model_cls rest
      end
  end.

Definition _get_model_architecture (config : PretrainedConfig)
  : M ModelClass :=
  let architectures := default [] (architectures config) in
  found ← find_model_cls architectures;
  match found with
  | Some model_cls => mret model_cls
  | None =>
      _ ← call CallGetSupportedArchs;
      raise (ValueError (ArchitecturesNotSupported architectures
                           (get_supported_archs env)))
  end.

Definition get_model (model_config : ModelConfig)
    (lora_config : option LoRAConfig) : M Model :=
  model_class ← _get_model_architecture (hf_config model_config);
  let linear_method : option LinearMethod := None in
  linear_method ←
    match quantization model_config with
    | Some method =>
        _ ← call (CallGetQuantConfig method);
        quant_config ← lift (get_quant_config env method
                               (model model_config)
                               (hf_config model_config)
                               (download_dir model_config));
        _ ← call CallGetDeviceCapability;
        capability ← lift (get_device_capability env);
        let capability := (fst capability * 10 + snd capability)%Z in
        if (capability <? get_min_capability quant_config)%Z then
          raise (ValueError (MethodNotSupportedForGPU Quantization method
                               (get_min_capability quant_config)
                               capability))
        else
          let supported_dtypes := get_supported_act_dtypes quant_config in
          if bool_decide (dtype model_config ∉ supported_dtypes) then
            raise (ValueError (DtypeNotSupported Quantization
                                 (dtype model_config) method
                                 supported_dtypes))
          else mret (Some (get_linear_method quant_config))
    | None => mret linear_method
    end;
  linear_method ←
    match sparsity model_config with
    | Some method =>
        _ ← call (CallGetSparseConfig method);
        sparse_config ← lift (get_sparse_config env method
                                (model model_config)
                                (hf_config model_config)
                                (download_dir model_config));
        _ ← call CallGetDeviceCapability;
        capability ← lift (get_device_capability env);
        let capability := (fst capability * 10 + snd capability)%Z in
        if (capability <? get_min_capability sparse_config)%Z then
          raise (ValueError (MethodNotSupportedForGPU Sparsity method
                               (get_min_capability sparse_config)
                               capability))
        else
          let supported_dtypes := get_supported_act_dtypes sparse_config in
          if bool_decide (dtype model_config ∉ supported_dtypes) then
            raise (ValueError (DtypeNotSupported Sparsity
                                 (dtype model_config) method
                                 supported_dtypes))
          else mret (Some (get_linear_method sparse_config))
    | None => mret linear_method
    end;
  net ←
    with_generator (_set_default_torch_dtype (dtype model_config))
      (net ←
         with_torch_device "cuda"
           (if default false (supports_lora env model_class) then
              _ ← call (CallModelClass model_class linear_method
                          (Some lora_config));
              dt ← torch_get_default_dtype;
              dev ← torch_get_default_device;
              lift (instantiate env model_class dt dev
                      (hf_config model_config) linear_method
                      (Some lora_config))
            else if bool_decide (is_Some lora_config) then
              raise (ValueError (LoRANotSupported
                                   (class_name env model_class)))
            else
              _ ← call (CallModelClass model_class linear_method None);
              dt ← torch_get_default_dtype;
              dev ← torch_get_default_device;
              lift (instantiate env model_class dt dev
                      (hf_config model_config) linear_method None));
       if bool_decide (load_format model_config = "dummy") then
         _ ← call CallInitializeDummyWeights;
         lift (initialize_dummy_weights env net)
       else
         _ ← call CallLoadWeights;
         lift (load_weights env net (model model_config)
                 (download_dir model_config) (load_format model_config)
                 (revision model_config)));
  mret (eval env net).

(** The blocks of [get_model], named to state its properties: the
    quantization block (lines 42-61), the sparsity block (lines 62-81)
    and the [with] block that builds the model (lines 83-105). *)
Definition quantization_block (model_config : ModelConfig)
    (linear_method : option LinearMethod) : M (option LinearMethod) :=
  match quantization model_config with
  | Some method =>
      _ ← call (CallGetQuantConfig method);
      quant_config ← lift (get_quant_config env method
                             (model model_config)
                             (hf_config model_config)
                             (download_dir model_config));
      _ ← call CallGetDeviceCapability;
      capability ← lift (get_device_capability env);
      let capability := (fst capability * 10 + snd capability)%Z in
      if (capability <? get_min_capability quant_config)%Z then
        raise (ValueError (MethodNotSupportedForGPU Quantization method
                             (get_min_capability quant_config)
                             capability))
      else
        let supported_dtypes := get_supported_act_dtypes quant_config in
        if bool_decide (dtype model_config ∉ supported_dtypes) then
          raise (ValueError (DtypeNotSupported Quantization
                               (dtype model_config) method
                               supported_dtypes))
        else mret (Some (get_linear_method quant_config))
  | None => mret linear_method
  end.

Definition sparsity_block (model_config : ModelConfig)
    (linear_method : option LinearMethod) : M (option LinearMethod) :=
  match sparsity model_config with
  | Some method =>
      _ ← call (CallGetSparseConfig method);
      sparse_config ← lift (get_sparse_config env method
                              (model model_config)
                              (hf_config model_config)
                              (download_dir model_config));
      _ ← call CallGetDeviceCapability;
      capability ← lift (get_device_capability env);
      let capability := (fst capability * 10 + snd capability)%Z in
      if (capability <? get_min_capability sparse_config)%Z then
        raise (ValueError (MethodNotSupportedForGPU Sparsity method
                             (get_min_capability sparse_config)
                             capability))
      else
        let supported_dtypes := get_supported_act_dtypes sparse_config in
        if bool_decide (dtype model_config ∉ supported_dtypes) then
          raise (ValueError (DtypeNotSupported Sparsity
                               (dtype model_config) method
                               supported_dtypes))
        else mret (Some (get_linear_method sparse_config))
  | None => mret linear_method
  end.

Definition instantiate_block (model_config : ModelConfig)
    (lora_config : option LoRAConfig) (model_class : ModelClass)
    (linear_method : option LinearMethod) : M Model :=
  if default false (supports_lora env model_class) then
    _ ← call (CallModelClass model_class linear_method (Some lora_config));
    dt ← torch_get_default_dtype;
    dev ← torch_get_default_device;
    lift (instantiate env model_class dt dev (hf_config model_config)
            linear_method (Some lora_config))
  else if bool_decide (is_Some lora_config) then
    raise (ValueError (LoRANotSupported (class_name env model_class)))
  else
    _ ← call (CallModelClass model_class linear_method None);
    dt ← torch_get_default_dtype;
    dev ← torch_get_default_device;
    lift (instantiate env model_class dt dev (hf_config model_config)
            linear_method None).

Definition weights_block (model_config : ModelConfig) (net : Model)
  : M Model :=
  if bool_decide (load_format model_config = "dummy") then
    _ ← call CallInitializeDummyWeights;
    lift (initialize_dummy_weights env net)
  else
    _ ← call CallLoadWeights;
    lift (load_weights env net (model model_config)
            (download_dir model_config) (load_format model_config)
            (revision model_config)).

Definition build_block (model_config : ModelConfig)
    (lora_config : option LoRAConfig) (model_class : ModelClass)
    (linear_method : option LinearMethod) : M Model :=
  with_generator (_set_default_torch_dtype (dtype model_config))
    (net ← with_torch_device "cuda"
             (instantiate_block model_config lora_config model_class
                linear_method);
     weights_block model_config net).

(** Everything [get_model] does before it enters the [with] block:
    the model class and the linear method it has selected. *)
Definition prepare (model_config : ModelConfig)
  : M (ModelClass * option LinearMethod) :=
  model_class ← _get_model_architecture (hf_config model_config);
  linear_method ← quantization_block model_config None;
  linear_method ← sparsity_block model_config linear_method;
  mret (model_class, linear_method).

(** The gate in the words of the specification ([CapabilityGate.validate]):
    it fails with the capability error when the capability ordinal is
    strictly below the minimum of the configuration, and with the dtype
    error when the model dtype is not among the supported dtypes. *)
Definition CapabilityGate_validate (kind : GateKind) (method : string)
    (capability : Z) (dt : TorchDtype) (config : MethodConfig)
  : result unit :=
  if (capability <? get_min_capability config)%Z then
    Raise (ValueError (MethodNotSupportedForGPU kind method
                         (get_min_capability config) capability))
  else if bool_decide (dt ∉ get_supported_act_dtypes config) then
    Raise (ValueError (DtypeNotSupported kind dt method
                         (get_supported_act_dtypes config)))
  else Ok tt.

(** The two gated configuration paths of [get_model], by kind: the
    method name the model configuration selects, the configuration the
    loader returns for it, and what must have gone well before the gate
    of that kind is evaluated (the sparsity gate comes after the
    quantization block). *)
Definition configured_method (kind : GateKind)
    (model_config : ModelConfig) : option string :=
  match kind with
  | Quantization => quantization model_config
  | Sparsity => sparsity model_config
  end.

Definition load_config (kind : GateKind) (model_config : ModelConfig)
    (method : string) : result MethodConfig :=
  match kind with
  | Quantization =>
      get_quant_config env method (model model_config)
        (hf_config model_config) (download_dir model_config)
  | Sparsity =>
      get_sparse_config env method (model model_config)
        (hf_config model_config) (download_dir model_config)
  end.

Definition reaches_gate (kind : GateKind) (model_config : ModelConfig)
    (capability : Z) : Prop :=
  match kind with
  | Quantization => True
  | Sparsity =>
      match quantization model_config with
      | None => True
      | Some method =>
          ∃ quant_config,
            load_config Quantization model_config method = Ok quant_config ∧
            gate_passes capability (dtype model_config) quant_config
      end
  end.

(** What the [with] block of [get_model] does, named to state its
    outcomes: the LoRA argument the model class is called with (absent
    for a class that does not support LoRA), the check that rejects a
    LoRA configuration for such a class, the call that fills the
    weights and its result, and the state in which an exception raised
    inside the block leaves the process (the default dtype is the model
    dtype, the default device is what it was). *)
Definition lora_argument (model_class : ModelClass)
    (lora_config : option LoRAConfig) : option (option LoRAConfig) :=
  if default false (supports_lora env model_class) then Some lora_config
  else None.

Definition lora_rejected (model_class : ModelClass)
    (lora_config : option LoRAConfig) : bool :=
  negb (default false (supports_lora env model_class)) &&
  bool_decide (is_Some lora_config).

Definition weights_call (model_config : ModelConfig) : Call :=
  if bool_decide (load_format model_config = "dummy")
  then CallInitializeDummyWeights else CallLoadWeights.

Definition fill_weights (model_config : ModelConfig) (net : Model)
  : result Model :=
  if bool_decide (load_format model_config = "dummy")
  then initialize_dummy_weights env net
  else load_weights env net (model model_config)
         (download_dir model_config) (load_format model_config)
         (revision model_config).

(** The linear method of the configured method that [get_model] keeps:
    the sparsity one when a sparsity method is configured, else the
    quantization one, else none. *)
Definition selected_linear_method (model_config : ModelConfig)
  : option LinearMethod :=
  let method_of kind method :=
    match load_config kind model_config method with
    | Ok config => Some (get_linear_method config)
    | Raise _ => None
    end in
  match sparsity model_config with
  | Some method => method_of Sparsity method
  | None =>
      match quantization model_config with
      | Some method => method_of Quantization method
      | None => None
      end
  end.

(** The configuration of a configured method was loaded and passed its
    gate at the capability of the accelerator. *)
Definition gate_passed (kind : GateKind) (model_config : ModelConfig)
    (method : string) : Prop :=
  ∃ config major minor,
    load_config kind model_config method = Ok config ∧
    get_device_capability env = Ok (major, minor) ∧
    gate_passes (major * 10 + minor) (dtype model_config) config.

(** The number of configured methods (quantization, sparsity). *)
Definition configured_methods (model_config : ModelConfig) : nat :=
  (if quantization model_config is Some _ then 1 else 0) +
  (if sparsity model_config is Some _ then 1 else 0).

Definition inside_block (model_config : ModelConfig) (st : World)
    (cs : list Call) : World :=
  {| default_dtype := dtype model_config;
     default_device := default_device st;
     calls := calls st ++ cs |}.
End WithEnv.
End Loader.

Arguments MethodConfig : clear implicits.
Arguments Call : clear implicits.
Arguments World : clear implicits.
Arguments Env : clear implicits.

(** ** Reference instances

    Integer scalars, and kernels that keep the "compressed" payload as a
    dense matrix: the structured-sparse matmul refuses row counts that are
    not multiples of 8 and [be_ds_gemm] is a plain matmul against the
    (transposed) payload.  They are used to run the definitions. *)

Global Instance Z_scalar : Scalar Z :=
  {| szero := 0%Z; sadd := Z.add; smul := Z.mul |}.

Definition dense_F_linear_sparse (x w bias : Tensor Z) : result (Tensor Z) :=
  rows ← shape_index (shape x) 0;
  if rows `mod` 8 =? 0 then F_linear x w (Some bias)
  else Raise (RuntimeError "row count must be a multiple of 8").

Definition dense_kernels : MagicWand Z :=
  {| CompressedData := Tensor Z;
     SparseTensor := Tensor Z;
     encapsulated_torch_sparse_tensor := Ok;
     sparse_shape := shape;
     F_linear_sparse := dense_F_linear_sparse;
     be_ds_gemm := matmul;
     decompress := Ok |}.

(** A small environment for the loader: linear methods, model classes and
    models are strings, the registry knows two architectures, the
    accelerator has capability 8.0. *)
Definition demo_config (min_capability : Z) (dts : list TorchDtype)
    (lm : string) : MethodConfig string :=
  {| get_min_capability := min_capability;
     get_supported_act_dtypes := dts;
     get_linear_method := lm |}.

Definition demo_env : Env string unit string string :=
  {| load_model_cls := λ arch,
       if bool_decide (arch = "LlamaForCausalLM") then Some "Llama"
       else if bool_decide (arch = "OPTForCausalLM") then Some "OPT"
       else None;
     get_supported_archs := ["LlamaForCausalLM"; "OPTForCausalLM"];
     get_quant_config := λ method _ _ _,
       if bool_decide (method = "awq")
       then Ok (demo_config 75 [Float16] "AWQLinearMethod")
       else if bool_decide (method = "future")
       then Ok (demo_config 90 [Float16] "FutureLinearMethod")
       else Raise (ExternalError "unknown quantization method");
     get_sparse_config := λ method _ _ _,
       if bool_decide (method = "sparse_w16a16")
       then Ok (demo_config 70 [Float16; BFloat16] "SparseW16A16LinearMethod")
       else if bool_decide (method = "future")
       then Ok (demo_config 90 [Float16] "FutureSparseLinearMethod")
       else Raise (ExternalError "unknown sparsity method");
     get_device_capability := Ok (8, 0)%Z;
     class_name := λ cls, cls;
     supports_lora := λ cls,
       if bool_decide (cls = "Llama") then Some true else None;
     instantiate := λ cls _ _ _ lm _,
       if bool_decide (cls = "OPT") then Raise (ExternalError "out of memory")
       else Ok (cls +:+ "/" +:+ default "UnquantizedLinearMethod" lm);
     initialize_dummy_weights := λ m, Ok (m +:+ "/dummy");
     load_weights := λ m _ _ _ _, Ok (m +:+ "/loaded");
     eval := λ m, m +:+ "/eval" |}.

Definition demo_model_config (archs : list string)
    (quant sparse : option string) (dt : TorchDtype) : ModelConfig :=
  {| hf_config := {| architectures := Some archs |};
     model := "model"; download_dir := None; load_format := "auto";
     revision := None; dtype := dt;
     quantization := quant; sparsity := sparse |}.

Definition demo_world : World string unit string :=
  {| default_dtype := Float32; default_device := "cpu"; calls := [] |}.

(** Weights and inputs for the linear method over the reference kernels. *)
Definition iota (s : list nat) : Tensor Z :=
  mkTensor s (Z.of_nat <$> seq 0 (numel s)).

Definition demo_method (cls : StorageFormatCls) : SparseW16A16LinearMethod :=
  {| sparsity_config :=
       {| sc_min_capability := 70; sc_supported_act_dtypes := [Float16] |};
     storage_format_cls := cls |}.

Definition demo_weight (cls : StorageFormatCls) (transposed : bool)
    (shp : list nat) (dense compressed : option (Tensor Z))
  : @LazyCompressedParameter Z dense_kernels :=
  @Build_LazyCompressedParameter Z dense_kernels
    shp Float16 cls transposed dense compressed
    {[ "input_dim" := 1; "output_dim" := 0 ]}.

Definition demo_weights (w : @LazyCompressedParameter Z dense_kernels)
  : gmap string (@LazyCompressedParameter Z dense_kernels) :=
  {[ "weight" := w ]}.
(** ** Properties of the linear method *)

Section LinearFacts.
Context {R : Type} {SR : Scalar R} {MW : MagicWand R}.

Lemma getitem_lookup {V} (d : gmap string V) key v :
  d !! key = Some v → getitem d key = Ok v.
Proof. unfold getitem. intros ->. reflexivity. Qed.

Lemma numel_snoc (l : list nat) (k : nat) : numel (l ++ [k]) = numel l * k.
Proof.
  unfold numel. induction l as [|a l IH]; simpl.
  - lia.
  - rewrite IH. lia.
Qed.

Lemma removelast_snoc {A} (l : list A) (a : A) : removelast (l ++ [a]) = l.
Proof. apply removelast_last. Qed.

Lemma shape_last_snoc (l : list nat) (k : nat) : shape_last (l ++ [k]) = Ok k.
Proof. unfold shape_last. rewrite last_snoc. reflexivity. Qed.

Lemma reshape_rows_snoc (x : Tensor R) lead k :
  shape x = lead ++ [k] → k ≠ 0 →
  reshape_rows x k = Ok (mkTensor [numel lead; k] (data x)).
Proof.
  intros Hs Hk. unfold reshape_rows. rewrite Hs, numel_snoc.
  destruct (Nat.eqb_spec k 0) as [?|_]; [lia|].
  rewrite Nat.Div0.mod_mul, Nat.eqb_refl, Nat.div_mul by lia.
  reflexivity.
Qed.

Lemma has_uncompressed_data_Some w d :
  uncompressed_data w = Some d → has_uncompressed_data w = true.
Proof. intros E. unfold has_uncompressed_data. rewrite E. reflexivity. Qed.

Lemma has_uncompressed_data_None w :
  uncompressed_data w = None → has_uncompressed_data w = false.
Proof. intros E. unfold has_uncompressed_data. rewrite E. reflexivity. Qed.

Lemma has_compressed_data_None w :
  compressed_data w = None → has_compressed_data w = false.
Proof. intros E. unfold has_compressed_data. rewrite E. reflexivity. Qed.

Lemma create_weights_lookup self i o i' o' dt :
  create_weights self i o i' o' dt !! "weight" =
    Some (set_weight_attrs
            (new_LazyCompressedParameter [o; i] dt (storage_format_cls self)
               (negb (bool_decide
                        (storage_format_cls self ≠ SparseBEGemmStorageFormat))))
            {[ "input_dim" := 1; "output_dim" := 0 ]}).
Proof. unfold create_weights. apply lookup_singleton_eq. Qed.
End LinearFacts.

Section TableFacts.
Context {A : Type}.
Implicit Types (f g : nat → nat → A).

Lemma bind_singleton_fmap {B} (h : B → A) (l : list B) :
  (x ← l; [h x]) = h <$> l.
Proof.
  induction l as [|b l IH]; [reflexivity|].
  rewrite bind_cons, IH. reflexivity.
Qed.

Lemma length_table_from f cols s rows :
  length (i ← seq s rows; j ← seq 0 cols; [f i j]) = rows * cols.
Proof.
  revert s. induction rows as [|a IH]; intros s; [reflexivity|].
  rewrite <-cons_seq, bind_cons.
  rewrite length_app, IH, bind_singleton_fmap, length_fmap, length_seq.
  reflexivity.
Qed.

Lemma length_table rows cols f : length (table rows cols f) = rows * cols.
Proof. apply length_table_from. Qed.

Lemma lookup_table_from f cols s rows i j :
  i < rows → j < cols →
  (i' ← seq s rows; j' ← seq 0 cols; [f i' j']) !! (i * cols + j)
  = Some (f (s + i) j).
Proof.
  revert s i. induction rows as [|a IH]; intros s i Hi Hj; [lia|].
  rewrite <-cons_seq, bind_cons, bind_singleton_fmap. destruct i as [|i].
  - rewrite lookup_app_l by (rewrite length_fmap, length_seq; simpl; lia).
    simpl. rewrite list_lookup_fmap, lookup_seq_lt by lia.
    simpl. by rewrite Nat.add_0_r.
  - rewrite lookup_app_r by (rewrite length_fmap, length_seq; simpl; lia).
    rewrite length_fmap, length_seq.
    replace (S i * cols + j - cols) with (i * cols + j) by lia.
    rewrite IH by lia. f_equal. f_equal. lia.
Qed.

Lemma lookup_table f rows cols i j :
  i < rows → j < cols →
  table rows cols f !! (i * cols + j) = Some (f i j).
Proof. intros Hi Hj. unfold table. by rewrite lookup_table_from. Qed.

Lemma table_ext f g rows cols :
  (∀ i j, i < rows → j < cols → f i j = g i j) →
  table rows cols f = table rows cols g.
Proof.
  intros E. unfold table.
  assert (∀ s, (∀ i j, s ≤ i < s + rows → j < cols → f i j = g i j) →
    (i ← seq s rows; j ← seq 0 cols; [f i j]) =
    (i ← seq s rows; j ← seq 0 cols; [g i j])) as G.
  { clear E. induction rows as [|a IH]; intros s E; [reflexivity|].
    rewrite <-cons_seq, !bind_cons.
    rewrite (IH (S s)) by (intros; apply E; lia).
    f_equal. rewrite !bind_singleton_fmap. apply list_fmap_ext.
    intros k j Hk. apply lookup_seq in Hk as [-> Hk]. apply E; lia. }
  apply G. intros i j Hi Hj. apply E; lia.
Qed.
End TableFacts.

Section TensorFacts.
Context {R : Type} {SR : Scalar R}.
Implicit Types (x w t : Tensor R) (d u v : list R).

Lemma entry_table (f : nat → nat → R) rows cols i j :
  i < rows → j < cols → entry (table rows cols f) (i * cols + j) = f i j.
Proof. intros Hi Hj. unfold entry. by rewrite lookup_table. Qed.

Lemma entry_lookup d i a : d !! i = Some a → entry d i = a.
Proof. unfold entry. by intros ->. Qed.

(** The products of two aligned slices, entry by entry. *)
Lemma zip_with_slices u v k a b :
  a + k ≤ length u → b + k ≤ length v →
  zip_with smul (take k (drop a u)) (take k (drop b v)) =
    (λ l, smul (entry u (a + l)) (entry v (b + l))) <$> seq 0 k.
Proof.
  revert a b. induction k as [|k IH]; intros a b Ha Hb; [reflexivity|].
  destruct (lookup_lt_is_Some_2 u a) as [ua Hua]; [lia|].
  destruct (lookup_lt_is_Some_2 v b) as [vb Hvb]; [lia|].
  rewrite (drop_S _ _ _ Hua), (drop_S _ _ _ Hvb). simpl.
  rewrite IH by lia.
  rewrite !Nat.add_0_r, (entry_lookup _ _ _ Hua), (entry_lookup _ _ _ Hvb).
  f_equal. rewrite <-fmap_S_seq, <-list_fmap_compose.
  apply list_fmap_ext. intros _ l _. simpl.
  by rewrite !Nat.add_succ_r.
Qed.

Lemma dot_rows u v k i j m n :
  length u = m * k → length v = n * k → i < m → j < n →
  dot (row k i u) (row k j v) =
    foldr sadd szero
      ((λ l, smul (entry u (i * k + l)) (entry v (j * k + l))) <$> seq 0 k).
Proof.
  intros Hu Hv Hi Hj. unfold dot, row.
  rewrite zip_with_slices by nia. reflexivity.
Qed.

Lemma reshape_shape t s out : reshape t s = Ok out → shape out = s.
Proof.
  unfold reshape. destruct (_ =? _); [|discriminate].
  by intros [= <-].
Qed.

Lemma F_linear_shape x w bias out rows cols :
  shape w = [rows; cols] → F_linear x w bias = Ok out →
  shape out = removelast (shape x) ++ [rows].
Proof.
  intros Hw. unfold F_linear. rewrite Hw.
  destruct (shape_last (shape x)) as [n|]; simpl; [|discriminate].
  destruct (n =? cols); simpl; [|discriminate].
  destruct bias as [b|].
  - destruct (bias_values rows b); simpl; [|discriminate]. by intros [= <-].
  - by intros [= <-].
Qed.

(** [F.linear] succeeds on a matrix weight when the trailing dimension of
    the input is its column count and no bias is given. *)
Lemma F_linear_no_bias_returns x w rows cols :
  shape w = [rows; cols] → last (shape x) = Some cols →
  ∃ out, F_linear x w None = Ok out.
Proof.
  intros Hw Hx. unfold F_linear, shape_last. rewrite Hw, Hx. simpl.
  rewrite Nat.eqb_refl. simpl. eauto.
Qed.

(** [F.linear(x, w, bias)] is [x @ wᵗ + bias]. *)
Lemma F_linear_dense_linear_transform x w bias rows cols :
  shape w = [rows; cols] → wf_tensor x → wf_tensor w →
  F_linear x w bias = dense_linear_transform x w bias.
Proof.
  intros Hw Hx Hwf. unfold F_linear, dense_linear_transform, transpose, matmul.
  rewrite Hw. simpl.
  destruct (shape_last (shape x)) as [n|] eqn:Hn; simpl; [|reflexivity].
  destruct (Nat.eqb_spec n cols) as [->|]; simpl; [|reflexivity].
  unfold shape_last in Hn.
  destruct (last (shape x)) as [n|] eqn:Hl; [|discriminate].
  injection Hn as ->.
  apply last_Some in Hl as [lead Hs].
  unfold wf_tensor in Hx, Hwf. rewrite Hs, numel_snoc in Hx.
  rewrite Hw in Hwf. simpl in Hwf. rewrite Nat.mul_1_r in Hwf.
  rewrite Hs, removelast_snoc.
  assert (table (numel lead) rows
            (λ i j, dot (row cols i (data x)) (row cols j (data w))) =
          table (numel lead) rows
            (λ i j, foldr sadd szero
               ((λ l, smul (entry (data x) (i * cols + l))
                        (entry (table cols rows
                                  (λ j0 i0, entry (data w) (i0 * cols + j0)))
                           (l * rows + j))) <$> seq 0 cols))) as E.
  { apply table_ext. intros i j Hi Hj.
    rewrite (dot_rows _ _ _ _ _ (numel lead) rows) by assumption.
    f_equal. apply list_fmap_ext. intros l' l Hlk.
    apply lookup_seq in Hlk as [-> Hlk]. simpl.
    by rewrite entry_table. }
  destruct bias as [b|]; simpl.
  - unfold add_bias. simpl. rewrite shape_last_snoc. simpl.
    destruct (bias_values rows b) as [bs|]; simpl; [|reflexivity].
    rewrite removelast_snoc. do 2 f_equal.
    rewrite <-E. apply table_ext. intros i j Hi Hj.
    by rewrite entry_table.
  - by rewrite E.
Qed.
End TensorFacts.

Section ApplyWeights.
Context {R : Type} {SR : Scalar R} {MW : MagicWand R}.
Implicit Types (self : SparseW16A16LinearMethod)
               (weights : gmap string LazyCompressedParameter)
               (w : LazyCompressedParameter) (x : Tensor R)
               (bias : option (Tensor R)).

(** The dispatch of [apply_weights] once the payload state is known. *)
Lemma apply_weights_on_uncompressed self weights w d x bias :
  weights !! "weight" = Some w →
  uncompressed_data w = Some d →
  apply_weights self weights x bias =
    (_ ← py_assert (negb (has_compressed_data w)); F_linear x d bias).
Proof.
  intros Hw Hu. unfold apply_weights.
  rewrite (getitem_lookup _ _ _ Hw). simpl.
  rewrite (has_uncompressed_data_Some _ _ Hu).
  unfold the_uncompressed_data. rewrite Hu.
  destruct (has_compressed_data w); reflexivity.
Qed.

Lemma apply_weights_on_compressed self weights w c x bias :
  weights !! "weight" = Some w →
  payload_compressed w c →
  apply_weights self weights x bias =
    if bool_decide
         (storage_format_cls self = SparseSemiStructuredStorageFormat) then
      _ ← py_assert (bool_decide (bias = None));
      w_encap ← encapsulated_torch_sparse_tensor c;
      n ← shape_index (sparse_shape w_encap) 0;
      k ← shape_last (shape x);
      x2 ← reshape_rows x k;
      '(reshaped_x, valid_rows_range) ← pad_tensor_to_multiple x2 8;
      output ← F_linear_sparse reshaped_x w_encap (torch_zeros [n]);
      output ← extract_valid_rows output valid_rows_range;
      reshape output (removelast (shape x) ++ [n])
    else if bool_decide
              (storage_format_cls self = SparseBEGemmStorageFormat) then
      _ ← py_assert (bool_decide (bias = None));
      _ ← py_assert (compress_transposed w);
      n ← shape_index (w_shape w) 0;
      k ← shape_last (shape x);
      reshaped_x ← reshape_rows x k;
      y ← be_ds_gemm reshaped_x c;
      reshape y (removelast (shape x) ++ [n])
    else
      _ ← py_assert (negb (compress_transposed w));
      d ← decompress c;
      F_linear x d bias.
Proof.
  intros Hw [Hu Hc]. unfold apply_weights.
  rewrite (getitem_lookup _ _ _ Hw). simpl.
  rewrite (has_uncompressed_data_None _ Hu).
  unfold the_compressed_data. rewrite Hc. simpl.
  repeat case_bool_decide; reflexivity.
Qed.

(** C7: the weight that [create_weights] builds has [compress_transposed]
    set exactly when the storage format class is
    [SparseBEGemmStorageFormat], the one format without an [F.linear]-like
    primitive; it is cleared for every other class.  The weight has the
    shape (output, input) of the partition and no data yet. *)
Theorem create_weights_compress_transposed self
    (input_size_per_partition output_size_per_partition : nat)
    (input_size output_size : nat) (params_dtype : TorchDtype) :
  ∃ w,
    create_weights self input_size_per_partition output_size_per_partition
      input_size output_size params_dtype !! "weight" = Some w ∧
    (compress_transposed w = true ↔
       storage_format_cls self = SparseBEGemmStorageFormat) ∧
    (compress_transposed w = false ↔
       storage_format_cls self ≠ SparseBEGemmStorageFormat) ∧
    w_shape w = [output_size_per_partition; input_size_per_partition] ∧
    payload_empty w.
Proof.
  eexists. split; [apply create_weights_lookup|]. simpl.
  destruct (decide (storage_format_cls self = SparseBEGemmStorageFormat))
    as [E|E].
  - rewrite bool_decide_eq_false_2 by (intros N; exact (N E)). simpl.
    unfold payload_empty. simpl. intuition congruence.
  - rewrite bool_decide_eq_true_2 by exact E. simpl.
    unfold payload_empty. simpl. intuition congruence.
Qed.

(** C3: with the block-compressed GEMM format and a compressed payload,
    [apply_weights] fails an assertion when a bias is given or when
    [compress_transposed] is false; otherwise it flattens the input to
    [(numel lead, k)], hands exactly that matrix (no padding) and the
    compressed payload to [be_ds_gemm], and reshapes the result to the
    leading dimensions of the input followed by [w.shape[0]]. *)
Theorem apply_weights_be_gemm self weights w c x bias :
  storage_format_cls self = SparseBEGemmStorageFormat →
  weights !! "weight" = Some w →
  payload_compressed w c →
  (bias ≠ None ∨ compress_transposed w = false →
     apply_weights self weights x bias = Raise AssertionError) ∧
  (bias = None → compress_transposed w = true →
     ∀ rows rest lead k,
       w_shape w = rows :: rest → shape x = lead ++ [k] → k ≠ 0 →
       apply_weights self weights x bias =
         (y ← be_ds_gemm (mkTensor [numel lead; k] (data x)) c;
          reshape y (lead ++ [rows]))).
Proof.
  intros Hcls Hw Hp.
  rewrite (apply_weights_on_compressed _ _ _ _ _ _ Hw Hp), Hcls.
  rewrite bool_decide_eq_false_2 by discriminate.
  rewrite bool_decide_eq_true_2 by reflexivity.
  split.
  - intros [Hb|Ht].
    + rewrite bool_decide_eq_false_2 by exact Hb. reflexivity.
    + destruct (bool_decide (bias = None)); simpl; [|reflexivity].
      rewrite Ht. reflexivity.
  - intros -> Ht rows rest lead k Hs Hx Hk.
    rewrite Ht, Hs, Hx. simpl.
    rewrite shape_last_snoc. simpl.
    rewrite (reshape_rows_snoc _ lead k) by (simpl; done). simpl.
    rewrite removelast_snoc. reflexivity.
Qed.

(** C4: with any storage format class other than the semi-structured and
    the block-compressed GEMM ones and a compressed payload,
    [apply_weights] fails an assertion when [compress_transposed] is
    true; otherwise it decompresses the payload and returns [F.linear] of
    the input, the decompressed matrix and the caller's optional bias. *)
Theorem apply_weights_generic_compressed self weights w c x bias :
  storage_format_cls self ≠ SparseSemiStructuredStorageFormat →
  storage_format_cls self ≠ SparseBEGemmStorageFormat →
  weights !! "weight" = Some w →
  payload_compressed w c →
  (compress_transposed w = true →
     apply_weights self weights x bias = Raise AssertionError) ∧
  (compress_transposed w = false →
     apply_weights self weights x bias =
       (d ← decompress c; F_linear x d bias)).
Proof.
  intros Hn1 Hn2 Hw Hp.
  rewrite (apply_weights_on_compressed _ _ _ _ _ _ Hw Hp).
  rewrite !bool_decide_eq_false_2 by assumption.
  split; intros ->; reflexivity.
Qed.
End ApplyWeights.

(** Case analysis on the steps of a computation that returned. *)
Ltac result_cases :=
  repeat match goal with
         | |- Raise _ = Ok _ → _ => discriminate
         | |- mbind _ ?r = Ok _ → _ => destruct r eqn:?; simpl
         | |- (let '(_, _) := ?p in _) = Ok _ → _ => destruct p; simpl
         end.

Section ApplyWeightsShapes.
Context {R : Type} {SR : Scalar R} {MW : MagicWand R}.
Implicit Types (self : SparseW16A16LinearMethod)
               (weights : gmap string LazyCompressedParameter)
               (w : LazyCompressedParameter) (x : Tensor R)
               (bias : option (Tensor R)).

(** The row count after padding is the next multiple of [multiple]. *)
Lemma padded_rows_next_multiple (rows multiple : nat) :
  multiple ≠ 0 →
  let padded_rows := (rows + multiple - 1) `div` multiple * multiple in
  Nat.divide multiple padded_rows ∧
  rows ≤ padded_rows < rows + multiple.
Proof.
  intros Hm padded_rows. subst padded_rows. split.
  - apply Nat.divide_factor_r.
  - pose proof (Nat.div_mod_eq (rows + multiple - 1) multiple).
    pose proof (Nat.mod_upper_bound (rows + multiple - 1) multiple Hm).
    nia.
Qed.

Lemma pad_tensor_to_multiple_matrix (rows cols multiple : nat) (d : list R) :
  multiple ≠ 0 →
  let padded_rows := (rows + multiple - 1) `div` multiple * multiple in
  pad_tensor_to_multiple (mkTensor [rows; cols] d) multiple =
    Ok (mkTensor [padded_rows; cols]
          (d ++ replicate ((padded_rows - rows) * cols) szero),
        (0, rows)).
Proof.
  intros Hm. unfold pad_tensor_to_multiple. cbn [shape data].
  destruct (Nat.eqb_spec multiple 0) as [?|_]; [lia|]. reflexivity.
Qed.

Lemma extract_valid_rows_prefix (t : Tensor R) (rows padded_rows cols : nat) :
  shape t = [padded_rows; cols] → rows ≤ padded_rows →
  extract_valid_rows t (0, rows) =
    Ok (mkTensor [rows; cols] (take (rows * cols) (data t))).
Proof.
  intros Hs Hle. unfold extract_valid_rows. rewrite Hs. cbn [fst snd].
  rewrite Nat.min_0_l, (Nat.min_l rows) by lia.
  rewrite Nat.sub_0_r, Nat.mul_0_l. reflexivity.
Qed.

(** Round trip: extracting the valid rows of a padded matrix gives the
    matrix back, also when no row was added. *)
Lemma extract_valid_rows_pad (rows cols multiple : nat) (d : list R) :
  multiple ≠ 0 → length d = rows * cols →
  ('(padded, valid_rows_range) ←
      pad_tensor_to_multiple (mkTensor [rows; cols] d) multiple;
    extract_valid_rows padded valid_rows_range)
  = Ok (mkTensor [rows; cols] d).
Proof.
  intros Hm Hd. rewrite pad_tensor_to_multiple_matrix by assumption.
  destruct (padded_rows_next_multiple rows multiple Hm) as [_ [Hle _]].
  simpl. erewrite extract_valid_rows_prefix; [|reflexivity|exact Hle].
  cbn [data]. by rewrite take_app_length' by done.
Qed.

(** C1: whenever the payload is uncompressed (dense data and no
    compressed data), [apply_weights] returns [F.linear] of the input,
    the dense weight and the caller's optional bias, whatever the storage
    format class of the linear method; for a well-formed input and a
    well-formed weight matrix this is [input @ weightᵗ + bias]. *)
Theorem apply_weights_uncompressed self weights w d x bias :
  weights !! "weight" = Some w →
  payload_uncompressed w d →
  apply_weights self weights x bias = F_linear x d bias ∧
  (∀ rows cols,
     shape d = [rows; cols] → wf_tensor x → wf_tensor d →
     apply_weights self weights x bias = dense_linear_transform x d bias).
Proof.
  intros Hw [Hu Hc].
  assert (apply_weights self weights x bias = F_linear x d bias) as E.
  { rewrite (apply_weights_on_uncompressed _ _ _ _ _ _ Hw Hu).
    by rewrite (has_compressed_data_None _ Hc). }
  split; [exact E|]. intros rows cols Hs Hx Hd.
  rewrite E. by apply (F_linear_dense_linear_transform _ _ _ rows cols).
Qed.

(** C2: with the semi-structured format, a compressed payload and no
    bias, [apply_weights] flattens the input to [(numel lead, k)], pads
    it with zero rows to the next multiple of 8 rows, calls the
    structured-sparse [F.linear] on the padded matrix, the encapsulated
    sparse tensor and a zero bias of [w_encap.shape[0]] entries, keeps
    the rows of the recorded range [(0, numel lead)] (the original row
    count) and reshapes to the leading dimensions of the input followed
    by [w_encap.shape[0]].  With a bias it fails an assertion. *)
Theorem apply_weights_semi_structured
    self weights w c w_encap n rest lead k x :
  storage_format_cls self = SparseSemiStructuredStorageFormat →
  weights !! "weight" = Some w →
  payload_compressed w c →
  encapsulated_torch_sparse_tensor c = Ok w_encap →
  sparse_shape w_encap = n :: rest →
  shape x = lead ++ [k] → k ≠ 0 →
  ∃ padded_rows,
    Nat.divide 8 padded_rows ∧
    numel lead ≤ padded_rows < numel lead + 8 ∧
    apply_weights self weights x None =
      (output ← F_linear_sparse
                  (mkTensor [padded_rows; k]
                     (data x ++
                      replicate ((padded_rows - numel lead) * k) szero))
                  w_encap
                  (mkTensor [n] (replicate n szero));
       output ← extract_valid_rows output (0, numel lead);
       reshape output (lead ++ [n])) ∧
    (∀ (output : Tensor R) cols,
       shape output = [padded_rows; cols] →
       extract_valid_rows output (0, numel lead) =
         Ok (mkTensor [numel lead; cols]
               (take (numel lead * cols) (data output)))) ∧
    (∀ b, apply_weights self weights x (Some b) = Raise AssertionError).
Proof.
  intros Hcls Hw Hp He Hn Hx Hk.
  destruct (padded_rows_next_multiple (numel lead) 8) as [Hdiv Hbound];
    [done|].
  exists ((numel lead + 8 - 1) `div` 8 * 8).
  split; [exact Hdiv|]. split; [exact Hbound|].
  rewrite !(apply_weights_on_compressed _ _ _ _ _ _ Hw Hp), Hcls.
  rewrite bool_decide_eq_true_2 by reflexivity.
  split; [|split].
  - simpl. rewrite He. simpl.
    unfold shape_index. rewrite Hn. simpl.
    rewrite Hx, shape_last_snoc. simpl.
    rewrite (reshape_rows_snoc _ lead k) by (rewrite ?Hx; done). simpl.
    rewrite removelast_snoc.
    unfold torch_zeros, numel. simpl. rewrite Nat.mul_1_r.
    reflexivity.
  - intros output cols Hs.
    apply (extract_valid_rows_prefix _ _ _ _ Hs). lia.
  - intros b.
    rewrite (apply_weights_on_compressed _ _ _ _ _ _ Hw Hp), Hcls.
    reflexivity.
Qed.

(** C5: for a weight of logical shape [(rows, cols)] as the layers hold
    it and an input whose trailing dimension is [cols], every output of
    [apply_weights], on whichever of the four branches, has the leading
    dimensions of the input followed by [rows]. *)
Theorem apply_weights_output_shape self weights w rows cols x bias out :
  weights !! "weight" = Some w →
  wf_weight self w rows cols →
  last (shape x) = Some cols →
  apply_weights self weights x bias = Ok out →
  shape out = removelast (shape x) ++ [rows].
Proof.
  intros Hw [Hshape Ht Hu He Hd] Hx.
  destruct (uncompressed_data w) as [d|] eqn:Eu.
  { rewrite (apply_weights_on_uncompressed _ _ _ _ _ _ Hw Eu).
    destruct (py_assert _); simpl; [|discriminate].
    apply F_linear_shape with (cols := cols). by apply Hu. }
  destruct (compressed_data w) as [c|] eqn:Ec.
  2:{ unfold apply_weights. rewrite (getitem_lookup _ _ _ Hw). simpl.
      rewrite (has_uncompressed_data_None _ Eu).
      unfold the_compressed_data. rewrite Ec.
      repeat case_bool_decide; simpl; result_cases. }
  rewrite (apply_weights_on_compressed _ _ _ c _ _ Hw) by done.
  unfold payload_shape in He, Hd.
  destruct (decide (storage_format_cls self =
                    SparseSemiStructuredStorageFormat)) as [Hsemi|Hsemi];
    [|destruct (decide (storage_format_cls self =
                        SparseBEGemmStorageFormat)) as [Hbe|Hbe]].
  3: rewrite !bool_decide_eq_false_2 by assumption.
  2: rewrite bool_decide_eq_false_2, bool_decide_eq_true_2 by assumption.
  1: rewrite bool_decide_eq_true_2 by assumption.
  - rewrite Hsemi in Ht. simpl in Ht. rewrite Ht, Hshape in He.
    result_cases. intros Hr%reshape_shape. rewrite Hr.
    match goal with
    | E : encapsulated_torch_sparse_tensor c = Ok ?s,
      E' : shape_index (sparse_shape ?s) 0 = Ok ?n |- _ =>
        rewrite (He c s) in E' by done; by injection E' as <-
    end.
  - result_cases. intros Hr%reshape_shape. rewrite Hr.
    match goal with
    | E : shape_index (w_shape w) 0 = Ok ?n |- _ =>
        rewrite Hshape in E; by injection E as <-
    end.
  - destruct (compress_transposed w) eqn:Ect; simpl; [discriminate|].
    destruct (decompress c) as [d|] eqn:Ed; simpl; [|discriminate].
    apply F_linear_shape with (cols := cols).
    rewrite (Hd c d) by done. exact Hshape.
Qed.

(** X14: on the dense branch, without a bias, an input whose trailing
    dimension is the column count of the dense weight matrix always gets
    an output, of the input's leading dimensions followed by the row
    count. *)
Lemma apply_weights_uncompressed_returns self weights w d rows cols x :
  weights !! "weight" = Some w →
  payload_uncompressed w d →
  shape d = [rows; cols] → last (shape x) = Some cols →
  ∃ out, apply_weights self weights x None = Ok out ∧
         shape out = removelast (shape x) ++ [rows].
Proof.
  intros Hw [Hu Hc] Hd Hx.
  rewrite (apply_weights_on_uncompressed _ _ _ _ _ _ Hw Hu).
  rewrite (has_compressed_data_None _ Hc). simpl.
  destruct (F_linear_no_bias_returns x d rows cols Hd Hx) as [out E].
  exists out. split; [exact E|].
  by apply (F_linear_shape _ _ _ _ rows cols Hd E).
Qed.

(** On the semi-structured branch the output exists as soon as the
    kernel returns a matrix with the padded row count: it is made of the
    first [numel lead] rows of the kernel's result. *)
Lemma apply_weights_semi_structured_returns
    self weights w c w_encap n rest lead k x (y : Tensor R) :
  storage_format_cls self = SparseSemiStructuredStorageFormat →
  weights !! "weight" = Some w →
  payload_compressed w c →
  encapsulated_torch_sparse_tensor c = Ok w_encap →
  sparse_shape w_encap = n :: rest →
  shape x = lead ++ [k] → k ≠ 0 →
  let padded_rows := (numel lead + 8 - 1) `div` 8 * 8 in
  F_linear_sparse
    (mkTensor [padded_rows; k]
       (data x ++ replicate ((padded_rows - numel lead) * k) szero))
    w_encap (torch_zeros [n]) = Ok y →
  shape y = [padded_rows; n] →
  apply_weights self weights x None =
    Ok (mkTensor (lead ++ [n]) (take (numel lead * n) (data y))).
Proof.
  intros Hcls Hw Hp He Hn Hx Hk padded_rows Hy Hsy.
  rewrite (apply_weights_on_compressed _ _ _ _ _ _ Hw Hp), Hcls.
  rewrite bool_decide_eq_true_2 by reflexivity.
  simpl. rewrite He. simpl. unfold shape_index. rewrite Hn. simpl.
  rewrite Hx, shape_last_snoc. simpl.
  rewrite (reshape_rows_snoc _ lead k) by (rewrite ?Hx; done).
  cbn [mbind result_bind].
  rewrite pad_tensor_to_multiple_matrix by done.
  cbn [mbind result_bind]. fold padded_rows. rewrite Hy.
  cbn [mbind result_bind].
  destruct (padded_rows_next_multiple (numel lead) 8) as [_ [Hle _]];
    [done|].
  rewrite (extract_valid_rows_prefix _ _ _ _ Hsy Hle).
  cbn [mbind result_bind]. rewrite removelast_snoc.
  unfold reshape. cbn [shape data].
  rewrite numel_snoc. unfold numel at 2. cbn [foldr].
  rewrite Nat.mul_1_r, Nat.eqb_refl. reflexivity.
Qed.

(** X13: on the block-compressed GEMM branch, once the kernel returns a
    matrix of [numel lead] rows and [w.shape[0]] columns, [apply_weights]
    returns the kernel's values unchanged, reshaped to the leading
    dimensions of the input followed by [w.shape[0]]. *)
Lemma apply_weights_be_gemm_returns
    self weights w c rows rest lead k x (y : Tensor R) :
  storage_format_cls self = SparseBEGemmStorageFormat →
  weights !! "weight" = Some w →
  payload_compressed w c →
  compress_transposed w = true →
  w_shape w = rows :: rest →
  shape x = lead ++ [k] → k ≠ 0 →
  be_ds_gemm (mkTensor [numel lead; k] (data x)) c = Ok y →
  shape y = [numel lead; rows] →
  apply_weights self weights x None = Ok (mkTensor (lead ++ [rows]) (data y)).
Proof.
  intros Hcls Hw Hp Ht Hs Hx Hk Hy Hsy.
  rewrite (apply_weights_on_compressed _ _ _ _ _ _ Hw Hp), Hcls.
  rewrite bool_decide_eq_false_2 by discriminate.
  rewrite bool_decide_eq_true_2 by reflexivity.
  rewrite Ht, Hs, Hx. simpl. rewrite shape_last_snoc. simpl.
  rewrite (reshape_rows_snoc _ lead k) by (simpl; done).
  cbn [mbind result_bind]. rewrite Hy. cbn [mbind result_bind].
  rewrite removelast_snoc. unfold reshape. rewrite Hsy, numel_snoc.
  unfold numel at 2. cbn [foldr].
  rewrite Nat.mul_1_r, Nat.eqb_refl. reflexivity.
Qed.

(** X12: a weight that holds dense data and compressed data at once is
    rejected by the assertion of the dense branch, whatever the storage
    format, the input and the bias. *)
Lemma apply_weights_both_payloads self weights w d c x bias :
  weights !! "weight" = Some w →
  uncompressed_data w = Some d → compressed_data w = Some c →
  apply_weights self weights x bias = Raise AssertionError.
Proof.
  intros Hw Hu Hc.
  rewrite (apply_weights_on_uncompressed _ _ _ _ _ _ Hw Hu).
  unfold has_compressed_data. rewrite Hc. reflexivity.
Qed.
End ApplyWeightsShapes.

(** ** The linear method on concrete weights *)

(** C1 at a dense 2x3 weight under the block-compressed GEMM format, with a
    bias. *)
Lemma apply_weights_uncompressed_witness :
  let self := demo_method SparseBEGemmStorageFormat in
  let w := demo_weight SparseBEGemmStorageFormat true [2; 3]
             (Some (iota [2; 3])) None in
  let x := iota [4; 3] in
  let bias := Some (iota [2]) in
  apply_weights self (demo_weights w) x bias = F_linear x (iota [2; 3]) bias ∧
  apply_weights self (demo_weights w) x bias =
    Ok (mkTensor [4; 2] [5; 15; 14; 51; 23; 87; 32; 123]%Z).
Proof.
  intros self w x bias.
  destruct (apply_weights_uncompressed self (demo_weights w) w (iota [2; 3])
              x bias) as [E _].
  - vm_compute. reflexivity.
  - split; reflexivity.
  - split; [exact E|]. rewrite E. vm_compute. reflexivity.
Defined.

(** C2 at the scenario of a 16x16 semi-structured weight and 5 input rows:
    the kernel sees 8 rows and the output has 5. *)
Lemma apply_weights_semi_structured_witness :
  let self := demo_method SparseSemiStructuredStorageFormat in
  let w := demo_weight SparseSemiStructuredStorageFormat false [16; 16]
             None (Some (iota [16; 16])) in
  let x := iota [5; 16] in
  ∃ padded_rows,
    padded_rows = 8 ∧
    apply_weights self (demo_weights w) x None =
      (output ← dense_F_linear_sparse
                  (mkTensor [padded_rows; 16]
                     (data x ++ replicate ((padded_rows - 5) * 16) 0%Z))
                  (iota [16; 16])
                  (mkTensor [16] (replicate 16 0%Z));
       output ← extract_valid_rows output (0, 5);
       reshape output [5; 16]) ∧
    shape <$> (match apply_weights self (demo_weights w) x None with
               | Ok out => Some out
               | Raise _ => None
               end) = Some [5; 16] ∧
    apply_weights self (demo_weights w) x (Some (iota [16])) =
      Raise AssertionError.
Proof.
  intros self w x.
  destruct (apply_weights_semi_structured self (demo_weights w) w
              (iota [16; 16]) (iota [16; 16]) 16 [16] [5] 16 x)
    as (padded_rows & Hdiv & Hbound & E & _ & Hbias).
  - reflexivity.
  - vm_compute. reflexivity.
  - split; reflexivity.
  - reflexivity.
  - reflexivity.
  - reflexivity.
  - discriminate.
  - exists padded_rows.
    assert (padded_rows = 8) as ->.
    { destruct Hdiv as [q ->]. simpl in Hbound. lia. }
    split; [reflexivity|]. split; [exact E|].
    split; [vm_compute; reflexivity|]. apply Hbias.
Defined.

(** C3 at a 2x3 weight stored transposed: the GEMM kernel gets the
    flattened 4x3 input as it is. *)
Lemma apply_weights_be_gemm_witness :
  let self := demo_method SparseBEGemmStorageFormat in
  let payload := mkTensor [3; 2] [0; 3; 1; 4; 2; 5]%Z in
  let w := demo_weight SparseBEGemmStorageFormat true [2; 3]
             None (Some payload) in
  let w' := demo_weight SparseBEGemmStorageFormat false [2; 3]
              None (Some payload) in
  let x := iota [2; 2; 3] in
  apply_weights self (demo_weights w) x (Some (iota [2])) =
    Raise AssertionError ∧
  apply_weights self (demo_weights w') x None = Raise AssertionError ∧
  apply_weights self (demo_weights w) x None =
    Ok (mkTensor [2; 2; 2] [5; 14; 14; 50; 23; 86; 32; 122]%Z).
Proof.
  intros self payload w w' x.
  destruct (apply_weights_be_gemm self (demo_weights w) w payload x
              (Some (iota [2]))) as [Hbias _];
    [reflexivity | vm_compute; reflexivity | split; reflexivity |].
  destruct (apply_weights_be_gemm self (demo_weights w') w' payload x None)
    as [Hflag _];
    [reflexivity | vm_compute; reflexivity | split; reflexivity |].
  destruct (apply_weights_be_gemm self (demo_weights w) w payload x None)
    as [_ Hrun];
    [reflexivity | vm_compute; reflexivity | split; reflexivity |].
  split; [apply Hbias; left; discriminate|].
  split; [apply Hflag; right; reflexivity|].
  rewrite (Hrun eq_refl eq_refl 2 [3] [2; 2] 3) by (reflexivity || discriminate).
  vm_compute. reflexivity.
Defined.

(** C4 at a bitmask-format weight. *)
Lemma apply_weights_generic_compressed_witness :
  let cls := OtherStorageFormat "SparseBitmaskStorageFormat" in
  let self := demo_method cls in
  let w := demo_weight cls false [2; 3] None (Some (iota [2; 3])) in
  let w' := demo_weight cls true [2; 3] None (Some (iota [2; 3])) in
  let x := iota [4; 3] in
  apply_weights self (demo_weights w') x None = Raise AssertionError ∧
  apply_weights self (demo_weights w) x (Some (iota [2])) =
    Ok (mkTensor [4; 2] [5; 15; 14; 51; 23; 87; 32; 123]%Z).
Proof.
  intros cls self w w' x.
  destruct (apply_weights_generic_compressed self (demo_weights w') w'
              (iota [2; 3]) x None) as [Hflag _];
    [discriminate | discriminate | vm_compute; reflexivity
    | split; reflexivity |].
  destruct (apply_weights_generic_compressed self (demo_weights w) w
              (iota [2; 3]) x (Some (iota [2]))) as [_ Hrun];
    [discriminate | discriminate | vm_compute; reflexivity
    | split; reflexivity |].
  split; [apply Hflag; reflexivity|].
  rewrite Hrun by reflexivity. vm_compute. reflexivity.
Defined.

(** The dense scenario of the specification: a 4x8 weight, an input of
    shape (2, 8) and a zero bias give an output of shape (2, 4) whose
    values are those of the dense matmul. *)
Example apply_weights_dense_scenario :
  let self := demo_method (OtherStorageFormat "SparseBitmaskStorageFormat") in
  let w := demo_weight (OtherStorageFormat "SparseBitmaskStorageFormat") false
             [4; 8] (Some (iota [4; 8])) None in
  let x := iota [2; 8] in
  let out := apply_weights self (demo_weights w) x (Some (torch_zeros [4])) in
  out = dense_linear_transform x (iota [4; 8]) (Some (torch_zeros [4])) ∧
  out = Ok (mkTensor [2; 4] [140; 364; 588; 812; 364; 1100; 1836; 2572]%Z).
Proof. split; vm_compute; reflexivity. Qed.

(** C5 at the 16x16 semi-structured weight with 5 input rows. *)
Lemma apply_weights_output_shape_witness :
  let self := demo_method SparseSemiStructuredStorageFormat in
  let w := demo_weight SparseSemiStructuredStorageFormat false [16; 16]
             None (Some (iota [16; 16])) in
  ∃ out,
    apply_weights self (demo_weights w) (iota [5; 16]) None = Ok out ∧
    shape out = [5; 16].
Proof.
  intros self w. eexists. split.
  - vm_compute. reflexivity.
  - apply (apply_weights_output_shape self (demo_weights w) w 16 16
             (iota [5; 16]) None).
    + vm_compute. reflexivity.
    + split; try reflexivity; try discriminate.
      * intros c s [= <-] [= <-]. reflexivity.
      * intros c d [= <-] [= <-]. reflexivity.
    + reflexivity.
    + vm_compute. reflexivity.
Defined.

(** ** Properties of the model loader *)

Section LoaderFacts.
Context {LinearMethod LoRAConfig ModelClass Model : Type}.
Local Abbreviation Env := (Env LinearMethod LoRAConfig ModelClass Model).
Local Abbreviation World := (World LinearMethod LoRAConfig ModelClass).
Local Abbreviation Call := (Call LinearMethod LoRAConfig ModelClass).
Implicit Types (env : Env) (st : World) (cs : list Call)
               (model_config : ModelConfig).

Lemma bind_run {A B} (m : M (LinearMethod := LinearMethod)
                            (LoRAConfig := LoRAConfig)
                            (ModelClass := ModelClass) A)
    (f : A → M B) st :
  (m ≫= f) st =
    match m st with
    | (st', Ok a) => f a st'
    | (st', Raise e) => (st', Raise e)
    end.
Proof. reflexivity. Qed.

Lemma record_calls_nil st : record_calls st [] = st.
Proof. destruct st. unfold record_calls. simpl. by rewrite app_nil_r. Qed.

Lemma record_calls_app st cs cs' :
  record_calls (record_calls st cs) cs' = record_calls st (cs ++ cs').
Proof. unfold record_calls. simpl. by rewrite app_assoc. Qed.

(** [get_model] is the sequence of its blocks. *)
Lemma get_model_blocks env model_config lora_config :
  get_model env model_config lora_config =
    (model_class ← _get_model_architecture env (hf_config model_config);
     linear_method ← quantization_block env model_config None;
     linear_method ← sparsity_block env model_config linear_method;
     net ← build_block env model_config lora_config model_class
             linear_method;
     mret (eval env net)).
Proof. reflexivity. Qed.

(** *** Architecture resolution *)

Lemma find_model_cls_first env pre arch post model_cls st :
  Forall (λ a, load_model_cls env a = None) pre →
  load_model_cls env arch = Some model_cls →
  find_model_cls env (pre ++ arch :: post) st =
    (record_calls st (CallLoadModelCls <$> pre ++ [arch]), Ok (Some model_cls)).
Proof.
  intros Hpre Harch. revert st.
  induction Hpre as [|a pre Ha _ IH]; intros st; simpl.
  - rewrite bind_run. unfold call. by rewrite Harch.
  - rewrite bind_run. unfold call. rewrite Ha, IH, record_calls_app.
    reflexivity.
Qed.

Lemma find_model_cls_none env archs st :
  Forall (λ a, load_model_cls env a = None) archs →
  find_model_cls env archs st =
    (record_calls st (CallLoadModelCls <$> archs), Ok None).
Proof.
  intros Hall. revert st.
  induction Hall as [|a archs Ha _ IH]; intros st; simpl.
  - by rewrite record_calls_nil.
  - rewrite bind_run. unfold call. rewrite Ha, IH, record_calls_app.
    reflexivity.
Qed.

(** Every list of names either has a first name that the registry
    resolves, or none. *)
Lemma first_resolved_or_none env archs :
  (∃ pre arch post model_cls,
     archs = pre ++ arch :: post ∧
     Forall (λ a, load_model_cls env a = None) pre ∧
     load_model_cls env arch = Some model_cls) ∨
  Forall (λ a, load_model_cls env a = None) archs.
Proof.
  induction archs as [|a archs IH]; [by right|].
  destruct (load_model_cls env a) as [model_cls|] eqn:Ha.
  - left. exists [], a, archs, model_cls. by repeat split.
  - destruct IH as [(pre & arch & post & model_cls & -> & Hpre & Harch)|Hall].
    + left. exists (a :: pre), arch, post, model_cls.
      repeat split; [|done]. by constructor.
    + right. by constructor.
Qed.

(** C8: [_get_model_architecture] asks the registry for the
    architecture names in order and returns the class of the first name
    that resolves, without asking for the names after it; when no name
    resolves it raises a [ValueError] that carries the names of the
    configuration and all the supported architecture names. *)
Theorem get_model_architecture_first_match env (config : PretrainedConfig) st :
  let archs := default [] (architectures config) in
  (∀ pre arch post model_cls,
     archs = pre ++ arch :: post →
     Forall (λ a, load_model_cls env a = None) pre →
     load_model_cls env arch = Some model_cls →
     _get_model_architecture env config st =
       (record_calls st (CallLoadModelCls <$> pre ++ [arch]),
        Ok model_cls)) ∧
  (Forall (λ a, load_model_cls env a = None) archs →
   _get_model_architecture env config st =
     (record_calls st
        ((CallLoadModelCls <$> archs) ++ [CallGetSupportedArchs]),
      Raise (ValueError (ArchitecturesNotSupported archs
                           (get_supported_archs env))))).
Proof.
  intros archs. unfold _get_model_architecture. fold archs. split.
  - intros pre arch post model_cls -> Hpre Harch.
    rewrite bind_run, (find_model_cls_first _ _ _ _ _ _ Hpre Harch).
    reflexivity.
  - intros Hall. rewrite bind_run, (find_model_cls_none _ _ _ Hall).
    rewrite bind_run. unfold call, raise. by rewrite record_calls_app.
Qed.
End LoaderFacts.

Section LoaderBlocks.
Context {LinearMethod LoRAConfig ModelClass Model : Type}.
Local Abbreviation Env := (Env LinearMethod LoRAConfig ModelClass Model).
Local Abbreviation World := (World LinearMethod LoRAConfig ModelClass).
Local Abbreviation Call := (Call LinearMethod LoRAConfig ModelClass).
Implicit Types (env : Env) (st : World) (cs new : list Call)
               (model_config : ModelConfig)
               (linear_method lm : option LinearMethod).

(** *** Counting gate evaluations *)

Lemma gate_evaluations_app cs cs' :
  gate_evaluations (cs ++ cs') = gate_evaluations cs + gate_evaluations cs'.
Proof. unfold gate_evaluations. by rewrite filter_app, length_app. Qed.

Lemma gate_evaluations_none cs :
  Forall (λ c, is_capability_call c = false) cs → gate_evaluations cs = 0.
Proof.
  unfold gate_evaluations. induction 1 as [|c cs Hc _ IH]; [reflexivity|].
  rewrite filter_cons_False by (rewrite Hc; discriminate). exact IH.
Qed.

Lemma calls_record_calls st new :
  calls (record_calls st new) = calls st ++ new.
Proof. reflexivity. Qed.

(** *** What each block does to the process-wide state *)

Lemma get_model_architecture_frame env (config : PretrainedConfig) st st' r :
  _get_model_architecture env config st = (st', r) →
  ∃ new, st' = record_calls st new ∧
         Forall (λ c, is_build_call c = false) new ∧
         gate_evaluations new = 0.
Proof.
  unfold _get_model_architecture. rewrite bind_run.
  destruct (first_resolved_or_none env (default [] (architectures config)))
    as [(pre & arch & post & model_cls & -> & Hpre & Harch)|Hall].
  - rewrite (find_model_cls_first _ _ _ _ _ _ Hpre Harch).
    intros [= <- <-]. eexists. split; [reflexivity|].
    split; [|apply gate_evaluations_none];
      apply Forall_fmap, Forall_true; done.
  - rewrite (find_model_cls_none _ _ _ Hall), bind_run.
    unfold call, raise. rewrite record_calls_app.
    intros [= <- <-]. eexists. split; [reflexivity|].
    split; [|apply gate_evaluations_none];
      (apply Forall_app; split;
       [apply Forall_fmap, Forall_true; done | by repeat constructor]).
Qed.

(** *** The gate *)

Lemma validate_capability_too_low kind method capability (dt : TorchDtype)
    (config : MethodConfig LinearMethod) :
  (capability < get_min_capability config)%Z →
  CapabilityGate_validate kind method capability dt config =
    Raise (ValueError (MethodNotSupportedForGPU kind method
                         (get_min_capability config) capability)).
Proof.
  intros Hlt. unfold CapabilityGate_validate.
  by rewrite (proj2 (Z.ltb_lt _ _) Hlt).
Qed.

Lemma validate_dtype_unsupported kind method capability (dt : TorchDtype)
    (config : MethodConfig LinearMethod) :
  (get_min_capability config ≤ capability)%Z →
  dt ∉ get_supported_act_dtypes config →
  CapabilityGate_validate kind method capability dt config =
    Raise (ValueError (DtypeNotSupported kind dt method
                         (get_supported_act_dtypes config))).
Proof.
  intros Hge Hdt. unfold CapabilityGate_validate.
  rewrite (proj2 (Z.ltb_ge _ _) Hge).
  by rewrite bool_decide_eq_true_2.
Qed.

Lemma validate_passes kind method capability (dt : TorchDtype)
    (config : MethodConfig LinearMethod) :
  gate_passes capability dt config ↔
  CapabilityGate_validate kind method capability dt config = Ok tt.
Proof.
  unfold gate_passes, CapabilityGate_validate. split.
  - intros [Hge Hdt]. rewrite (proj2 (Z.ltb_ge _ _) Hge).
    rewrite bool_decide_eq_false_2; [reflexivity|].
    intros Hn. exact (Hn Hdt).
  - destruct (Z.ltb_spec capability (get_min_capability config));
      [discriminate|].
    case_bool_decide as Hd; [discriminate|]. intros _. split; [done|].
    destruct (decide (dt ∈ get_supported_act_dtypes config))
      as [Hin|Hnin]; [done|].
    contradiction.
Qed.

Lemma quantization_block_run env model_config lm st method config major minor :
  quantization model_config = Some method →
  load_config env Quantization model_config method = Ok config →
  get_device_capability env = Ok (major, minor) →
  let capability := (major * 10 + minor)%Z in
  quantization_block env model_config lm st =
    (record_calls st [CallGetQuantConfig method; CallGetDeviceCapability],
     _ ← CapabilityGate_validate Quantization method capability
           (dtype model_config) config;
     Ok (Some (get_linear_method config))).
Proof.
  intros Hm Hc Hcap capability. unfold quantization_block.
  simpl in Hc. rewrite Hm. rewrite !bind_run. unfold call, lift.
  rewrite Hc. rewrite !bind_run. rewrite Hcap. simpl.
  rewrite record_calls_app. fold capability.
  unfold CapabilityGate_validate.
  destruct (capability <? _)%Z; [reflexivity|].
  destruct (bool_decide _); reflexivity.
Qed.

Lemma sparsity_block_run env model_config lm st method config major minor :
  sparsity model_config = Some method →
  load_config env Sparsity model_config method = Ok config →
  get_device_capability env = Ok (major, minor) →
  let capability := (major * 10 + minor)%Z in
  sparsity_block env model_config lm st =
    (record_calls st [CallGetSparseConfig method; CallGetDeviceCapability],
     _ ← CapabilityGate_validate Sparsity method capability
           (dtype model_config) config;
     Ok (Some (get_linear_method config))).
Proof.
  intros Hm Hc Hcap capability. unfold sparsity_block.
  simpl in Hc. rewrite Hm. rewrite !bind_run. unfold call, lift.
  rewrite Hc. rewrite !bind_run. rewrite Hcap. simpl.
  rewrite record_calls_app. fold capability.
  unfold CapabilityGate_validate.
  destruct (capability <? _)%Z; [reflexivity|].
  destruct (bool_decide _); reflexivity.
Qed.

Ltac block_frame :=
  unfold call, lift, raise, mbind, M_bind, mret, M_ret; simpl;
  repeat case_match; simplify_eq; simpl;
  intros [= <- <-]; simpl.

Lemma quantization_block_frame env model_config lm st st' r :
  quantization_block env model_config lm st = (st', r) →
  ∃ new, st' = record_calls st new ∧
         Forall (λ c, is_build_call c = false) new ∧
         gate_evaluations new ≤ 1 ∧
         (gate_evaluations new = 1 → is_Some (quantization model_config)).
Proof.
  unfold quantization_block.
  destruct (quantization model_config) as [method|] eqn:Hm.
  2:{ intros [= <- <-]. exists []. rewrite record_calls_nil.
      split; [reflexivity|]. split; [apply Forall_nil_2|].
      split; [vm_compute; lia | discriminate]. }
  block_frame; rewrite ?record_calls_app; eexists;
    (split; [reflexivity|]);
    (split; [by repeat constructor|]);
    (split; [vm_compute; lia | eauto]).
Qed.

Lemma sparsity_block_frame env model_config lm st st' r :
  sparsity_block env model_config lm st = (st', r) →
  ∃ new, st' = record_calls st new ∧
         Forall (λ c, is_build_call c = false) new ∧
         gate_evaluations new ≤ 1 ∧
         (gate_evaluations new = 1 → is_Some (sparsity model_config)).
Proof.
  unfold sparsity_block.
  destruct (sparsity model_config) as [method|] eqn:Hm.
  2:{ intros [= <- <-]. exists []. rewrite record_calls_nil.
      split; [reflexivity|]. split; [apply Forall_nil_2|].
      split; [vm_compute; lia | discriminate]. }
  block_frame; rewrite ?record_calls_app; eexists;
    (split; [reflexivity|]);
    (split; [by repeat constructor|]);
    (split; [vm_compute; lia | eauto]).
Qed.

(** The [with] block: it evaluates no gate, it leaves the default device
    as it was, and it leaves the default dtype restored when it returns
    and set to the model dtype when it raises. *)
Lemma build_block_frame env model_config lora cls lm st st' r :
  build_block env model_config lora cls lm st = (st', r) →
  (∃ new, calls st' = calls st ++ new ∧ gate_evaluations new = 0) ∧
  default_device st' = default_device st ∧
  default_dtype st' =
    match r with
    | Ok _ => default_dtype st
    | Raise _ => dtype model_config
    end.
Proof.
  unfold build_block, with_generator, _set_default_torch_dtype,
    with_torch_device, instantiate_block, weights_block.
  simpl. unfold torch_get_default_dtype, torch_get_default_device,
    torch_set_default_dtype, torch_set_default_device.
  block_frame.
  all: split; [|done].
  all: eexists; split;
    [rewrite <-?app_assoc; first [reflexivity | symmetry; apply app_nil_r]
    | reflexivity].
Qed.

(** The state after [prepare] is the state before it with calls added. *)
Lemma prepare_frame env model_config st st' r :
  prepare env model_config st = (st', r) →
  ∃ new, st' = record_calls st new ∧
         Forall (λ c, is_build_call c = false) new ∧
         gate_evaluations new ≤ 2 ∧
         (gate_evaluations new = 2 →
          is_Some (quantization model_config) ∧
          is_Some (sparsity model_config)).
Proof.
  unfold prepare. rewrite bind_run.
  destruct (_get_model_architecture _ _ _) as [st0 r0] eqn:E0.
  apply get_model_architecture_frame in E0 as (new0 & -> & Hb0 & Hg0).
  destruct r0 as [cls|e].
  2:{ intros [= <- <-]. exists new0. repeat split; [done|lia|lia|lia]. }
  rewrite bind_run.
  destruct (quantization_block _ _ _ _) as [st1 r1] eqn:E1.
  apply quantization_block_frame in E1 as (new1 & -> & Hb1 & Hg1 & Hq).
  rewrite record_calls_app.
  destruct r1 as [lm1|e].
  2:{ intros [= <- <-]. exists (new0 ++ new1).
      rewrite gate_evaluations_app.
      repeat split; [by apply Forall_app|lia|lia|lia]. }
  rewrite bind_run.
  destruct (sparsity_block _ _ _ _) as [st2 r2] eqn:E2.
  apply sparsity_block_frame in E2 as (new2 & -> & Hb2 & Hg2 & Hs).
  rewrite record_calls_app.
  assert (∀ r', (record_calls st ((new0 ++ new1) ++ new2), r') = (st', r) →
    ∃ new, st' = record_calls st new ∧
           Forall (λ c, is_build_call c = false) new ∧
           gate_evaluations new ≤ 2 ∧
           (gate_evaluations new = 2 →
            is_Some (quantization model_config) ∧
            is_Some (sparsity model_config))) as G.
  { intros r' [= <- <-]. exists ((new0 ++ new1) ++ new2).
    rewrite !gate_evaluations_app.
    repeat split; try lia.
    - apply Forall_app; split; [apply Forall_app; split|]; assumption.
    - apply Hq. lia.
    - apply Hs. lia. }
  destruct r2; apply G.
Qed.

Lemma get_model_prepare env model_config lora_config st :
  get_model env model_config lora_config st =
    ('(model_class, linear_method) ← prepare env model_config;
     net ← build_block env model_config lora_config model_class
             linear_method;
     mret (eval env net)) st.
Proof.
  rewrite get_model_blocks. unfold prepare. rewrite !bind_run.
  destruct (_get_model_architecture _ _ _) as [st0 [cls|e]];
    [|reflexivity].
  rewrite !bind_run.
  destruct (quantization_block _ _ _ _) as [st1 [lm1|e]]; [|reflexivity].
  rewrite !bind_run.
  destruct (sparsity_block _ _ _ _) as [st2 [lm2|e]]; reflexivity.
Qed.
End LoaderBlocks.

Section GetModel.
Context {LinearMethod LoRAConfig ModelClass Model : Type}.
Local Abbreviation Env := (Env LinearMethod LoRAConfig ModelClass Model).
Local Abbreviation World := (World LinearMethod LoRAConfig ModelClass).
Local Abbreviation Call := (Call LinearMethod LoRAConfig ModelClass).
Implicit Types (env : Env) (st : World) (cs new : list Call)
               (model_config : ModelConfig)
               (lora_config : option LoRAConfig).

(** The quantization block passes when the sparsity gate is reached. *)
Lemma quantization_block_passes env model_config st major minor :
  get_device_capability env = Ok (major, minor) →
  reaches_gate env Sparsity model_config (major * 10 + minor) →
  ∃ new lm,
    quantization_block env model_config None st =
      (record_calls st new, Ok lm) ∧
    Forall (λ c, is_build_call c = false) new.
Proof.
  intros Hcap Hreach. simpl in Hreach.
  destruct (quantization model_config) as [method|] eqn:Hq.
  - destruct Hreach as (quant_config & Hc & Hpass).
    rewrite (quantization_block_run _ _ _ _ _ _ _ _ Hq Hc Hcap).
    apply (validate_passes Quantization method) in Hpass. rewrite Hpass.
    eexists _, _. split; [reflexivity|]. by repeat constructor.
  - unfold quantization_block. rewrite Hq.
    exists [], None. rewrite record_calls_nil. by split.
Qed.

(** Whatever makes the gate of a path fail makes [get_model] fail, with
    nothing built. *)
Lemma get_model_gate_fails env model_config lora_config st st0 model_class
    (kind : GateKind) (method : string) (config : MethodConfig LinearMethod)
    (major minor : Z) (e : PyError) :
  _get_model_architecture env (hf_config model_config) st =
    (st0, Ok model_class) →
  get_device_capability env = Ok (major, minor) →
  configured_method kind model_config = Some method →
  load_config env kind model_config method = Ok config →
  reaches_gate env kind model_config (major * 10 + minor) →
  CapabilityGate_validate kind method (major * 10 + minor)
    (dtype model_config) config = Raise e →
  ∃ new,
    get_model env model_config lora_config st =
      (record_calls st new, Raise e) ∧
    Forall (λ c, is_build_call c = false) new.
Proof.
  intros Harch Hcap Hm Hc Hreach Hfail.
  destruct (get_model_architecture_frame _ _ _ _ _ Harch)
    as (new0 & -> & Hb0 & _).
  rewrite get_model_blocks, bind_run, Harch, bind_run.
  destruct kind; simpl in Hm.
  - rewrite (quantization_block_run _ _ _ _ _ _ _ _ Hm Hc Hcap), Hfail.
    rewrite record_calls_app. eexists. split; [reflexivity|].
    apply Forall_app. split; [done|by repeat constructor].
  - destruct (quantization_block_passes env model_config
                (record_calls st new0) _ _ Hcap Hreach)
      as (new1 & lm & -> & Hb1).
    rewrite bind_run.
    rewrite (sparsity_block_run _ _ _ _ _ _ _ _ Hm Hc Hcap), Hfail.
    rewrite !record_calls_app. eexists. split; [reflexivity|].
    repeat (apply Forall_app; split); [done|done|by repeat constructor].
Qed.

(** C6: on the quantization path and on the sparsity path alike, once
    the configuration of that path is loaded, [get_model] raises the
    capability error whenever the capability ordinal is below the
    minimum of the configuration, whatever the model dtype, and raises
    the dtype error when the capability reaches the minimum and the model
    dtype is not a supported activation dtype.  In both cases nothing was
    built: none of the calls made is to the model class, the dummy
    initialisation or the weight loader, and the default dtype and device
    are untouched. *)
Theorem get_model_gate env model_config lora_config st st0 model_class
    (kind : GateKind) (method : string) (config : MethodConfig LinearMethod)
    (major minor : Z) :
  _get_model_architecture env (hf_config model_config) st =
    (st0, Ok model_class) →
  get_device_capability env = Ok (major, minor) →
  configured_method kind model_config = Some method →
  load_config env kind model_config method = Ok config →
  let capability := (major * 10 + minor)%Z in
  reaches_gate env kind model_config capability →
  ((capability < get_min_capability config)%Z →
   ∃ new,
     get_model env model_config lora_config st =
       (record_calls st new,
        Raise (ValueError (MethodNotSupportedForGPU kind method
                             (get_min_capability config) capability))) ∧
     Forall (λ c, is_build_call c = false) new) ∧
  ((get_min_capability config ≤ capability)%Z →
   dtype model_config ∉ get_supported_act_dtypes config →
   ∃ new,
     get_model env model_config lora_config st =
       (record_calls st new,
        Raise (ValueError (DtypeNotSupported kind (dtype model_config)
                             method (get_supported_act_dtypes config)))) ∧
     Forall (λ c, is_build_call c = false) new).
Proof.
  intros Harch Hcap Hm Hc capability Hreach. split.
  - intros Hlt.
    apply (get_model_gate_fails _ _ _ _ _ _ _ _ _ _ _ _
             Harch Hcap Hm Hc Hreach).
    by apply validate_capability_too_low.
  - intros Hge Hdt.
    apply (get_model_gate_fails _ _ _ _ _ _ _ _ _ _ _ _
             Harch Hcap Hm Hc Hreach).
    by apply validate_dtype_unsupported.
Qed.

(** C9: with a quantization and a sparsity method both configured and
    both gates passed, [get_model] raises no configuration error: it
    builds the model with the linear method of the sparsity
    configuration, which has replaced the one of the quantization
    configuration.  Such a call evaluates two gates, and a call of
    [get_model] evaluates two gates only when both methods are
    configured. *)
Theorem get_model_sparsity_overrides_quantization
    env model_config lora_config st st0 model_class
    (quant_method sparse_method : string)
    (quant_config sparse_config : MethodConfig LinearMethod)
    (major minor : Z) :
  _get_model_architecture env (hf_config model_config) st =
    (st0, Ok model_class) →
  quantization model_config = Some quant_method →
  sparsity model_config = Some sparse_method →
  load_config env Quantization model_config quant_method = Ok quant_config →
  load_config env Sparsity model_config sparse_method = Ok sparse_config →
  get_device_capability env = Ok (major, minor) →
  gate_passes (major * 10 + minor) (dtype model_config) quant_config →
  gate_passes (major * 10 + minor) (dtype model_config) sparse_config →
  get_model env model_config lora_config st =
    (net ← build_block env model_config lora_config model_class
             (Some (get_linear_method sparse_config));
     mret (eval env net))
      (record_calls st0
         [CallGetQuantConfig quant_method; CallGetDeviceCapability;
          CallGetSparseConfig sparse_method; CallGetDeviceCapability]) ∧
  (∀ st' r new,
     get_model env model_config lora_config st = (st', r) →
     calls st' = calls st ++ new → gate_evaluations new = 2) ∧
  (∀ model_config' lora_config' w w' r new,
     get_model env model_config' lora_config' w = (w', r) →
     calls w' = calls w ++ new →
     gate_evaluations new = 2 →
     is_Some (quantization model_config') ∧
     is_Some (sparsity model_config')).
Proof.
  intros Harch Hq Hs Hqc Hsc Hcap Hqpass Hspass.
  assert (get_model env model_config lora_config st =
    (net ← build_block env model_config lora_config model_class
             (Some (get_linear_method sparse_config));
     mret (eval env net))
      (record_calls st0
         [CallGetQuantConfig quant_method; CallGetDeviceCapability;
          CallGetSparseConfig sparse_method; CallGetDeviceCapability]))
    as Hrun; [|split; [exact Hrun|split]].
  - rewrite get_model_blocks, bind_run, Harch, bind_run.
    rewrite (quantization_block_run _ _ _ _ _ _ _ _ Hq Hqc Hcap).
    apply (validate_passes Quantization quant_method) in Hqpass.
    rewrite Hqpass. simpl. rewrite bind_run.
    rewrite (sparsity_block_run _ _ _ _ _ _ _ _ Hs Hsc Hcap).
    apply (validate_passes Sparsity sparse_method) in Hspass.
    rewrite Hspass. simpl. rewrite record_calls_app. reflexivity.
  - intros st' r new Hst' Hcalls. rewrite Hrun, bind_run in Hst'.
    destruct (get_model_architecture_frame _ _ _ _ _ Harch)
      as (new0 & -> & _ & Hg0).
    destruct (build_block _ _ _ _ _ _) as [st2 r2] eqn:Eb.
    apply build_block_frame in Eb as [(newb & Hcb & Hgb) _].
    assert (st' = st2) as -> by (destruct r2; by injection Hst').
    rewrite Hcb, !calls_record_calls, <-!app_assoc in Hcalls.
    apply app_inv_head in Hcalls as <-.
    rewrite !gate_evaluations_app, Hg0, Hgb. reflexivity.
  - clear. intros model_config' lora_config' w w' r new Hrun Hcalls Hcount.
    rewrite get_model_prepare, bind_run in Hrun.
    destruct (prepare env model_config' w) as [w1 r1] eqn:Ep.
    apply prepare_frame in Ep as (newp & -> & _ & _ & Hboth).
    destruct r1 as [[cls lm]|e].
    + rewrite bind_run in Hrun.
      destruct (build_block _ _ _ _ _ _) as [w2 r2] eqn:Eb.
      apply build_block_frame in Eb as [(newb & Hcb & Hgb) _].
      assert (w' = w2) as -> by (destruct r2; by injection Hrun).
      rewrite Hcb, calls_record_calls, <-app_assoc in Hcalls.
      apply app_inv_head in Hcalls as <-.
      rewrite gate_evaluations_app, Hgb in Hcount.
      apply Hboth. lia.
    + injection Hrun as <- <-.
      rewrite calls_record_calls in Hcalls.
      apply app_inv_head in Hcalls as <-. by apply Hboth.
Qed.

(** C10: when [get_model] returns, the default dtype is what it was
    before the call.  When it raises, the default dtype is what it was
    before the call only if the exception came before the [with] block;
    an exception raised inside the block leaves the default dtype set to
    the model dtype, because the generator has no [try] around its
    [yield]. *)
Theorem get_model_default_dtype env model_config lora_config st st' r :
  get_model env model_config lora_config st = (st', r) →
  match r with
  | Ok _ => default_dtype st' = default_dtype st
  | Raise _ =>
      match prepare env model_config st with
      | (_, Ok _) => default_dtype st' = dtype model_config
      | (_, Raise _) => default_dtype st' = default_dtype st
      end
  end.
Proof.
  rewrite get_model_prepare, bind_run.
  destruct (prepare env model_config st) as [st1 r1] eqn:Ep.
  apply prepare_frame in Ep as (newp & -> & _).
  destruct r1 as [[cls lm]|e].
  - rewrite bind_run.
    destruct (build_block _ _ _ _ _ _) as [st2 r2] eqn:Eb.
    apply build_block_frame in Eb as (_ & _ & Hdt).
    destruct r2; intros [= <- <-]; exact Hdt.
  - by intros [= <- <-].
Qed.
End GetModel.

(** ** The model loader on the reference environment *)

(** C8 on the reference registry: the second name resolves, the third is
    not asked for; an unknown name alone lists the supported names. *)
Lemma get_model_architecture_first_match_witness :
  _get_model_architecture demo_env
    {| architectures := Some ["Foo"; "LlamaForCausalLM"; "OPTForCausalLM"] |}
    demo_world =
    (record_calls demo_world
       [CallLoadModelCls "Foo"; CallLoadModelCls "LlamaForCausalLM"],
     Ok "Llama") ∧
  _get_model_architecture demo_env {| architectures := Some ["Foo"] |}
    demo_world =
    (record_calls demo_world [CallLoadModelCls "Foo"; CallGetSupportedArchs],
     Raise (ValueError (ArchitecturesNotSupported ["Foo"]
                          ["LlamaForCausalLM"; "OPTForCausalLM"]))).
Proof.
  split.
  - destruct (get_model_architecture_first_match demo_env
                {| architectures :=
                     Some ["Foo"; "LlamaForCausalLM"; "OPTForCausalLM"] |}
                demo_world) as [Hfirst _].
    apply (Hfirst ["Foo"] "LlamaForCausalLM" ["OPTForCausalLM"] "Llama");
      [reflexivity | by repeat constructor | reflexivity].
  - destruct (get_model_architecture_first_match demo_env
                {| architectures := Some ["Foo"] |} demo_world)
      as [_ Hnone].
    apply Hnone. by repeat constructor.
Defined.

(** C6 on the sparsity path, after a quantization gate that passes (the
    capability 80 is below the minimum 90), and on the quantization path
    with a dtype that the method does not support. *)
Lemma get_model_gate_witness :
  (∃ new,
     get_model demo_env
       (demo_model_config ["LlamaForCausalLM"] (Some "awq") (Some "future")
          Float16)
       None demo_world =
       (record_calls demo_world new,
        Raise (ValueError (MethodNotSupportedForGPU Sparsity "future" 90 80))) ∧
     Forall (λ c, is_build_call c = false) new) ∧
  (∃ new,
     get_model demo_env
       (demo_model_config ["LlamaForCausalLM"] (Some "awq") None Float32)
       None demo_world =
       (record_calls demo_world new,
        Raise (ValueError (DtypeNotSupported Quantization Float32 "awq"
                             [Float16]))) ∧
     Forall (λ c, is_build_call c = false) new).
Proof.
  split.
  - destruct (get_model_gate demo_env
                (demo_model_config ["LlamaForCausalLM"] (Some "awq")
                   (Some "future") Float16)
                None demo_world
                (record_calls demo_world [CallLoadModelCls "LlamaForCausalLM"])
                "Llama" Sparsity "future"
                (demo_config 90 [Float16] "FutureSparseLinearMethod") 8 0)
      as [Hlow _].
    + vm_compute. reflexivity.
    + reflexivity.
    + reflexivity.
    + vm_compute. reflexivity.
    + exists (demo_config 75 [Float16] "AWQLinearMethod").
      split; [vm_compute; reflexivity|].
      split; [simpl; lia|]. apply elem_of_cons. by left.
    + apply Hlow. simpl. lia.
  - destruct (get_model_gate demo_env
                (demo_model_config ["LlamaForCausalLM"] (Some "awq") None
                   Float32)
                None demo_world
                (record_calls demo_world [CallLoadModelCls "LlamaForCausalLM"])
                "Llama" Quantization "awq"
                (demo_config 75 [Float16] "AWQLinearMethod") 8 0)
      as [_ Hdtype].
    + vm_compute. reflexivity.
    + reflexivity.
    + reflexivity.
    + vm_compute. reflexivity.
    + exact I.
    + apply Hdtype; [simpl; lia|].
      apply not_elem_of_cons. split; [discriminate|apply not_elem_of_nil].
Defined.

(** C9 on the reference environment: both methods configured, the model
    is built with the sparsity linear method. *)
Lemma get_model_sparsity_overrides_quantization_witness :
  let model_config :=
    demo_model_config ["LlamaForCausalLM"] (Some "awq")
      (Some "sparse_w16a16") Float16 in
  get_model demo_env model_config None demo_world =
    (net ← build_block demo_env model_config None "Llama"
             (Some "SparseW16A16LinearMethod");
     mret (eval demo_env net))
      (record_calls demo_world
         [CallLoadModelCls "LlamaForCausalLM";
          CallGetQuantConfig "awq"; CallGetDeviceCapability;
          CallGetSparseConfig "sparse_w16a16"; CallGetDeviceCapability]) ∧
  get_model demo_env model_config None demo_world =
    (record_calls demo_world
       [CallLoadModelCls "LlamaForCausalLM";
        CallGetQuantConfig "awq"; CallGetDeviceCapability;
        CallGetSparseConfig "sparse_w16a16"; CallGetDeviceCapability;
        CallModelClass "Llama" (Some "SparseW16A16LinearMethod") (Some None);
        CallLoadWeights],
     Ok "Llama/SparseW16A16LinearMethod/loaded/eval").
Proof.
  intros model_config.
  destruct (get_model_sparsity_overrides_quantization demo_env model_config
              None demo_world
              (record_calls demo_world [CallLoadModelCls "LlamaForCausalLM"])
              "Llama" "awq" "sparse_w16a16"
              (demo_config 75 [Float16] "AWQLinearMethod")
              (demo_config 70 [Float16; BFloat16] "SparseW16A16LinearMethod")
              8 0) as (E & _ & _).
  - vm_compute. reflexivity.
  - reflexivity.
  - reflexivity.
  - vm_compute. reflexivity.
  - vm_compute. reflexivity.
  - reflexivity.
  - split; [simpl; lia|]. apply elem_of_cons. by left.
  - split; [simpl; lia|]. apply elem_of_cons. by left.
  - split; [exact E|]. rewrite E. vm_compute. reflexivity.
Defined.

(** C10 on a call that returns: the default dtype is [Float32] again. *)
Lemma get_model_default_dtype_witness :
  let run :=
    get_model demo_env
      (demo_model_config ["LlamaForCausalLM"] None (Some "sparse_w16a16")
         Float16)
      None demo_world in
  run.2 = Ok "Llama/SparseW16A16LinearMethod/loaded/eval" ∧
  default_dtype run.1 = Float32.
Proof.
  intros run. split; [vm_compute; reflexivity|].
  apply (get_model_default_dtype demo_env
           (demo_model_config ["LlamaForCausalLM"] None (Some "sparse_w16a16")
              Float16)
           None demo_world run.1
           (Ok "Llama/SparseW16A16LinearMethod/loaded/eval")).
  vm_compute. reflexivity.
Defined.

(** A call that raises inside the [with] block (the model class fails)
    leaves the default dtype at the model dtype; one that raises before the
    block leaves it as it was. *)
Example get_model_raise_default_dtype :
  get_model demo_env (demo_model_config ["OPTForCausalLM"] None None Float16)
    None demo_world =
    ({| default_dtype := Float16; default_device := "cpu";
        calls := [CallLoadModelCls "OPTForCausalLM";
                  CallModelClass "OPT" None None] |},
     Raise (ExternalError "out of memory")) ∧
  get_model demo_env (demo_model_config ["Foo"] None None Float16)
    None demo_world =
    ({| default_dtype := Float32; default_device := "cpu";
        calls := [CallLoadModelCls "Foo"; CallGetSupportedArchs] |},
     Raise (ValueError (ArchitecturesNotSupported ["Foo"]
                          ["LlamaForCausalLM"; "OPTForCausalLM"]))).
Proof. split; vm_compute; reflexivity. Qed.

(** ** Further properties of the [with] block and of the selection *)

Section BuildBlock.
Context {LinearMethod LoRAConfig ModelClass Model : Type}.
Local Abbreviation Env := (Env LinearMethod LoRAConfig ModelClass Model).
Local Abbreviation World := (World LinearMethod LoRAConfig ModelClass).
Local Abbreviation Call := (Call LinearMethod LoRAConfig ModelClass).
Implicit Types (env : Env) (st : World) (cs new : list Call)
               (model_config : ModelConfig)
               (lora_config : option LoRAConfig)
               (linear_method lm : option LinearMethod).

(** The [with] block in closed form. *)
Lemma build_block_run env model_config lora_config model_class lm st :
  build_block env model_config lora_config model_class lm st =
    if lora_rejected env model_class lora_config then
      (inside_block model_config st [],
       Raise (ValueError (LoRANotSupported (class_name env model_class))))
    else
      let c := CallModelClass model_class lm
                 (lora_argument env model_class lora_config) in
      match instantiate env model_class (dtype model_config) "cuda"
              (hf_config model_config) lm
              (lora_argument env model_class lora_config) with
      | Raise e => (inside_block model_config st [c], Raise e)
      | Ok net =>
          match fill_weights env model_config net with
          | Raise e =>
              (inside_block model_config st [c; weights_call model_config],
               Raise e)
          | Ok net' =>
              (record_calls st [c; weights_call model_config], Ok net')
          end
      end.
Proof.
  unfold build_block, with_generator, _set_default_torch_dtype,
    with_torch_device, instantiate_block, weights_block, lora_rejected,
    lora_argument, fill_weights, weights_call, inside_block, record_calls.
  simpl. unfold torch_get_default_dtype, torch_get_default_device,
    torch_set_default_dtype, torch_set_default_device,
    call, lift, raise, mbind, M_bind, mret, M_ret, record_calls. simpl.
  destruct (default false (supports_lora env model_class)); simpl.
  - destruct (instantiate _ _ _ _ _ _ _) as [net|e]; simpl;
      [|by rewrite ?app_nil_r].
    destruct (bool_decide (load_format model_config = "dummy")); simpl;
      match goal with
      | |- context [match ?r with Ok _ => _ | Raise _ => _ end] =>
          destruct r
      end; simpl; by rewrite <-?app_assoc.
  - destruct (bool_decide (is_Some lora_config)); simpl;
      [by rewrite app_nil_r|].
    destruct (instantiate _ _ _ _ _ _ _) as [net|e]; simpl;
      [|by rewrite ?app_nil_r].
    destruct (bool_decide (load_format model_config = "dummy")); simpl;
      match goal with
      | |- context [match ?r with Ok _ => _ | Raise _ => _ end] =>
          destruct r
      end; simpl; by rewrite <-?app_assoc.
Qed.

(** The calls of the [with] block: none (a rejected LoRA configuration),
    the model class alone (it raised), or the model class followed by
    the call that fills the weights. *)
Lemma build_block_calls env model_config lora_config model_class lm st st' r :
  build_block env model_config lora_config model_class lm st = (st', r) →
  let c := CallModelClass model_class lm
             (lora_argument env model_class lora_config) in
  ∃ new,
    calls st' = calls st ++ new ∧
    (new = [] ∨ new = [c] ∨ new = [c; weights_call model_config]) ∧
    (is_Some (match r with Ok a => Some a | Raise _ => None end) →
     new = [c; weights_call model_config]).
Proof.
  rewrite build_block_run. intros Hrun c. fold c in Hrun.
  destruct (lora_rejected _ _ _).
  { injection Hrun as <- <-. exists []. simpl.
    split; [done|]. split; [by left|]. by intros [? [=]]. }
  destruct (instantiate _ _ _ _ _ _ _) as [net|e].
  2:{ injection Hrun as <- <-. exists [c].
      split; [done|]. split; [by right; left|]. by intros [? [=]]. }
  destruct (fill_weights _ _ _) as [net'|e];
    injection Hrun as <- <-; exists [c; weights_call model_config];
    (split; [done|]); (split; [by right; right|done]).
Qed.

(** *** What a block that returned has done *)

Lemma quantization_block_ok env model_config lm0 st st' lm :
  quantization_block env model_config lm0 st = (st', Ok lm) →
  match quantization model_config with
  | None => lm = lm0 ∧ st' = st
  | Some method =>
      gate_passed env Quantization model_config method ∧
      (∃ config,
         load_config env Quantization model_config method = Ok config ∧
         lm = Some (get_linear_method config)) ∧
      st' = record_calls st [CallGetQuantConfig method;
                             CallGetDeviceCapability]
  end.
Proof.
  destruct (quantization model_config) as [method|] eqn:Hm.
  2:{ unfold quantization_block. rewrite Hm. by intros [= <- <-]. }
  destruct (load_config env Quantization model_config method)
    as [config|e] eqn:Hc.
  2:{ unfold quantization_block. rewrite Hm, !bind_run. unfold call, lift.
      simpl in Hc. rewrite Hc. discriminate. }
  destruct (get_device_capability env) as [[major minor]|e] eqn:Hcap.
  2:{ unfold quantization_block. rewrite Hm, !bind_run. unfold call, lift.
      simpl in Hc. rewrite Hc, !bind_run, Hcap. discriminate. }
  rewrite (quantization_block_run _ _ _ _ _ _ _ _ Hm Hc Hcap).
  destruct (CapabilityGate_validate _ _ _ _ _) as [[]|e] eqn:Hv;
    [|discriminate].
  apply validate_passes in Hv. intros [= <- <-].
  split; [by exists config, major, minor|]. split; [by exists config|done].
Qed.

Lemma sparsity_block_ok env model_config lm0 st st' lm :
  sparsity_block env model_config lm0 st = (st', Ok lm) →
  match sparsity model_config with
  | None => lm = lm0 ∧ st' = st
  | Some method =>
      gate_passed env Sparsity model_config method ∧
      (∃ config,
         load_config env Sparsity model_config method = Ok config ∧
         lm = Some (get_linear_method config)) ∧
      st' = record_calls st [CallGetSparseConfig method;
                             CallGetDeviceCapability]
  end.
Proof.
  destruct (sparsity model_config) as [method|] eqn:Hm.
  2:{ unfold sparsity_block. rewrite Hm. by intros [= <- <-]. }
  destruct (load_config env Sparsity model_config method)
    as [config|e] eqn:Hc.
  2:{ unfold sparsity_block. rewrite Hm, !bind_run. unfold call, lift.
      simpl in Hc. rewrite Hc. discriminate. }
  destruct (get_device_capability env) as [[major minor]|e] eqn:Hcap.
  2:{ unfold sparsity_block. rewrite Hm, !bind_run. unfold call, lift.
      simpl in Hc. rewrite Hc, !bind_run, Hcap. discriminate. }
  rewrite (sparsity_block_run _ _ _ _ _ _ _ _ Hm Hc Hcap).
  destruct (CapabilityGate_validate _ _ _ _ _) as [[]|e] eqn:Hv;
    [|discriminate].
  apply validate_passes in Hv. intros [= <- <-].
  split; [by exists config, major, minor|]. split; [by exists config|done].
Qed.

(** The architecture that [_get_model_architecture] returns is registered
    under one of the configured names. *)
Lemma get_model_architecture_ok env (config : PretrainedConfig) st st' cls :
  _get_model_architecture env config st = (st', Ok cls) →
  ∃ arch, arch ∈ default [] (architectures config) ∧
          load_model_cls env arch = Some cls.
Proof.
  unfold _get_model_architecture. rewrite bind_run.
  destruct (first_resolved_or_none env (default [] (architectures config)))
    as [(pre & arch & post & model_cls & -> & Hpre & Harch)|Hall].
  - rewrite (find_model_cls_first _ _ _ _ _ _ Hpre Harch).
    intros [= <- <-]. exists arch. split; [|done].
    apply elem_of_app. right. apply elem_of_cons. by left.
  - rewrite (find_model_cls_none _ _ _ Hall), bind_run. discriminate.
Qed.

(** When [get_model] enters its [with] block, the class is a registered
    one, every configured method has passed its gate, one capability read
    was made per configured method and the linear method is the selected
    one. *)
Lemma prepare_ok env model_config st st1 cls lm :
  prepare env model_config st = (st1, Ok (cls, lm)) →
  (∃ arch, arch ∈ default [] (architectures (hf_config model_config)) ∧
           load_model_cls env arch = Some cls) ∧
  (∀ kind method, configured_method kind model_config = Some method →
                  gate_passed env kind model_config method) ∧
  lm = selected_linear_method env model_config ∧
  ∃ new,
    st1 = record_calls st new ∧
    Forall (λ c, is_build_call c = false) new ∧
    gate_evaluations new = configured_methods model_config.
Proof.
  unfold prepare, configured_methods. rewrite bind_run.
  destruct (_get_model_architecture _ _ _) as [st0 [cls0|e]] eqn:E0;
    [|discriminate].
  pose proof (get_model_architecture_ok _ _ _ _ _ E0) as Hcls.
  apply get_model_architecture_frame in E0 as (new0 & -> & Hb0 & Hg0).
  rewrite bind_run.
  destruct (quantization_block _ _ _ _) as [st1' [lm1|e]] eqn:E1;
    [|discriminate].
  apply quantization_block_ok in E1.
  rewrite bind_run.
  destruct (sparsity_block _ _ _ _) as [st2 [lm2|e]] eqn:E2;
    [|discriminate].
  apply sparsity_block_ok in E2.
  intros [= <- <- <-]. split; [exact Hcls|].
  unfold selected_linear_method.
  destruct (sparsity model_config) as [sm|] eqn:Hs;
    destruct (quantization model_config) as [qm|] eqn:Hq.
  - destruct E1 as (Hqp & _ & ->). destruct E2 as (Hsp & (sc & Hsc & ->) & ->).
    rewrite Hsc. split; [|split; [done|]].
    + intros [] method; simpl; rewrite ?Hq, ?Hs; by intros [= <-].
    + rewrite !record_calls_app. eexists. split; [reflexivity|].
      rewrite !gate_evaluations_app, Hg0.
      split; [|reflexivity].
      repeat (apply Forall_app; split); [done|..]; by repeat constructor.
  - destruct E1 as [-> ->]. destruct E2 as (Hsp & (sc & Hsc & ->) & ->).
    rewrite Hsc. split; [|split; [done|]].
    + intros [] method; simpl; rewrite ?Hq, ?Hs; by intros [= <-].
    + rewrite !record_calls_app. eexists. split; [reflexivity|].
      rewrite !gate_evaluations_app, Hg0.
      split; [|reflexivity].
      repeat (apply Forall_app; split); [done|..]; by repeat constructor.
  - destruct E1 as (Hqp & (qc & Hqc & ->) & ->). destruct E2 as [-> ->].
    rewrite Hqc. split; [|split; [done|]].
    + intros [] method; simpl; rewrite ?Hq, ?Hs; by intros [= <-].
    + rewrite !record_calls_app. eexists. split; [reflexivity|].
      rewrite !gate_evaluations_app, Hg0.
      split; [|reflexivity].
      repeat (apply Forall_app; split); [done|..]; by repeat constructor.
  - destruct E1 as [-> ->]. destruct E2 as [-> ->].
    split; [|split; [done|]].
    + intros [] method; simpl; rewrite ?Hq, ?Hs; by intros [= <-].
    + exists new0. rewrite Hg0. by repeat split.
Qed.
End BuildBlock.

Section GetModelMore.
Context {LinearMethod LoRAConfig ModelClass Model : Type}.
Local Abbreviation Env := (Env LinearMethod LoRAConfig ModelClass Model).
Local Abbreviation World := (World LinearMethod LoRAConfig ModelClass).
Local Abbreviation Call := (Call LinearMethod LoRAConfig ModelClass).
Implicit Types (env : Env) (st : World) (cs new : list Call)
               (model_config : ModelConfig)
               (lora_config : option LoRAConfig)
               (linear_method lm : option LinearMethod).

Lemma get_model_architecture_none env (config : PretrainedConfig) st :
  Forall (λ a, load_model_cls env a = None)
    (default [] (architectures config)) →
  _get_model_architecture env config st =
    (record_calls st
       ((CallLoadModelCls <$> default [] (architectures config)) ++
        [CallGetSupportedArchs]),
     Raise (ValueError (ArchitecturesNotSupported
                          (default [] (architectures config))
                          (get_supported_archs env)))).
Proof.
  intros Hall. unfold _get_model_architecture.
  rewrite bind_run, (find_model_cls_none _ _ _ Hall), bind_run.
  unfold call, raise. by rewrite record_calls_app.
Qed.

Lemma get_model_architecture_registry_calls env (config : PretrainedConfig)
    st st' r :
  _get_model_architecture env config st = (st', r) →
  ∃ new, st' = record_calls st new ∧
         Forall (λ c, is_registry_call c = true) new.
Proof.
  destruct (first_resolved_or_none env (default [] (architectures config)))
    as [(pre & arch & post & model_cls & Heq & Hpre & Harch)|Hall].
  - unfold _get_model_architecture. rewrite bind_run, Heq.
    rewrite (find_model_cls_first _ _ _ _ _ _ Hpre Harch).
    intros [= <- <-]. eexists. split; [reflexivity|].
    apply Forall_fmap, Forall_true. done.
  - rewrite (get_model_architecture_none _ _ _ Hall).
    intros [= <- <-]. eexists. split; [reflexivity|].
    apply Forall_app. split; [|by repeat constructor].
    apply Forall_fmap, Forall_true. done.
Qed.

(** X1: [_get_model_architecture] returns a class exactly when one of the
    configured names is registered, and the class is the one registered
    under a configured name; otherwise it raises the [ValueError] with
    the configured and the supported names.  It leaves the default dtype
    and device alone. *)
Theorem get_model_architecture_result env (config : PretrainedConfig)
    st st' r :
  _get_model_architecture env config st = (st', r) →
  let archs := default [] (architectures config) in
  match r with
  | Ok cls => ∃ arch, arch ∈ archs ∧ load_model_cls env arch = Some cls
  | Raise e =>
      Forall (λ a, load_model_cls env a = None) archs ∧
      e = ValueError (ArchitecturesNotSupported archs
                        (get_supported_archs env))
  end ∧
  default_dtype st' = default_dtype st ∧
  default_device st' = default_device st.
Proof.
  intros Hrun archs. split.
  - destruct r as [cls|e].
    + exact (get_model_architecture_ok _ _ _ _ _ Hrun).
    + destruct (first_resolved_or_none env archs)
        as [(pre & arch & post & model_cls & Heq & Hpre & Harch)|Hall].
      * unfold _get_model_architecture in Hrun. fold archs in Hrun.
        rewrite bind_run, Heq in Hrun.
        rewrite (find_model_cls_first _ _ _ _ _ _ Hpre Harch) in Hrun.
        discriminate.
      * rewrite (get_model_architecture_none _ _ _ Hall) in Hrun.
        injection Hrun as _ <-. done.
  - apply get_model_architecture_registry_calls in Hrun as (new & -> & _).
    done.
Qed.

(** X2: when none of the configured architecture names is registered
    (also when there is none), [get_model] raises the architecture error
    after asking the registry only: no configuration is loaded, no
    capability is read and nothing is built, whatever methods are
    configured. *)
Theorem get_model_unknown_architecture env model_config lora_config st :
  let archs := default [] (architectures (hf_config model_config)) in
  Forall (λ a, load_model_cls env a = None) archs →
  get_model env model_config lora_config st =
    (record_calls st ((CallLoadModelCls <$> archs) ++ [CallGetSupportedArchs]),
     Raise (ValueError (ArchitecturesNotSupported archs
                          (get_supported_archs env)))).
Proof.
  intros archs Hall. rewrite get_model_blocks, bind_run.
  by rewrite (get_model_architecture_none _ _ _ Hall).
Qed.

(** X3: an error of the configuration loader, on either path, goes
    through [get_model] unchanged; loading the configuration was its
    last call (no capability is read for it) and nothing was built. *)
Theorem get_model_config_error env model_config lora_config st st0
    model_class (kind : GateKind) (method : string) (e : PyError) :
  _get_model_architecture env (hf_config model_config) st =
    (st0, Ok model_class) →
  configured_method kind model_config = Some method →
  load_config env kind model_config method = Raise e →
  (kind = Sparsity →
   ∀ quant_method, quantization model_config = Some quant_method →
     gate_passed env Quantization model_config quant_method) →
  ∃ new,
    get_model env model_config lora_config st =
      (record_calls st new, Raise e) ∧
    Forall (λ c, is_build_call c = false) new ∧
    last new = Some (match kind with
                     | Quantization => CallGetQuantConfig method
                     | Sparsity => CallGetSparseConfig method
                     end).
Proof.
  intros Harch Hm Hc Hquant.
  destruct (get_model_architecture_frame _ _ _ _ _ Harch)
    as (new0 & -> & Hb0 & _).
  rewrite get_model_blocks, bind_run, Harch, bind_run.
  destruct kind; simpl in Hm, Hc.
  - unfold quantization_block. rewrite Hm, !bind_run. unfold call, lift.
    rewrite Hc, record_calls_app. eexists. split; [reflexivity|].
    split; [apply Forall_app; split; [done|by repeat constructor]|].
    apply last_snoc.
  - assert (∃ new1 lm1,
      quantization_block env model_config None (record_calls st new0) =
        (record_calls (record_calls st new0) new1, Ok lm1) ∧
      Forall (λ c, is_build_call c = false) new1)
      as (new1 & lm1 & -> & Hb1).
    { destruct (quantization model_config) as [qm|] eqn:Hq.
      - destruct (Hquant eq_refl qm eq_refl)
          as (qc & major & minor & Hqc & Hcap & Hpass).
        rewrite (quantization_block_run _ _ _ _ _ _ _ _ Hq Hqc Hcap).
        apply (validate_passes Quantization qm) in Hpass. rewrite Hpass.
        eexists _, _. split; [reflexivity|]. by repeat constructor.
      - unfold quantization_block. rewrite Hq.
        exists [], None. rewrite record_calls_nil. by split. }
    rewrite bind_run. unfold sparsity_block.
    rewrite Hm, !bind_run. unfold call, lift.
    rewrite Hc, !record_calls_app. eexists. split; [reflexivity|].
    split; [repeat (apply Forall_app; split);
            [done|done|by repeat constructor]|].
    rewrite app_assoc. apply last_snoc.
Qed.

(** *** The runs of [get_model] *)

(** A run either stops before the [with] block, with nothing built, or
    enters it with a class and a linear method and ends as the block
    does. *)
Lemma get_model_cases env model_config lora_config st st' r :
  get_model env model_config lora_config st = (st', r) →
  (∃ e, prepare env model_config st = (st', Raise e) ∧ r = Raise e) ∨
  (∃ cls lm st1 rb,
     prepare env model_config st = (st1, Ok (cls, lm)) ∧
     build_block env model_config lora_config cls lm st1 = (st', rb) ∧
     r = match rb with
         | Ok net => Ok (eval env net)
         | Raise e => Raise e
         end).
Proof.
  rewrite get_model_prepare, bind_run.
  destruct (prepare env model_config st) as [st1 [[cls lm]|e]].
  - rewrite bind_run.
    destruct (build_block _ _ _ _ _ _) as [st2 rb] eqn:Eb.
    intros Hrun. right. exists cls, lm, st1, rb. split; [done|].
    destruct rb; injection Hrun as <- <-; by split.
  - intros [= <- <-]. left. by exists e.
Qed.

Lemma quantization_block_no_sparse_call env model_config lm st st' r :
  quantization_block env model_config lm st = (st', r) →
  ∃ new, st' = record_calls st new ∧
         Forall (λ c, is_sparse_config_call c = false) new.
Proof.
  unfold quantization_block.
  destruct (quantization model_config) as [method|].
  2:{ intros [= <- <-]. exists []. rewrite record_calls_nil.
      split; [reflexivity|apply Forall_nil_2]. }
  unfold call, lift, raise, mbind, M_bind, mret, M_ret; simpl.
  repeat case_match; simplify_eq; simpl;
    intros [= <- <-]; rewrite ?record_calls_app; eexists;
    (split; [reflexivity|by repeat constructor]).
Qed.

(** The sparsity configuration is asked for only once the quantization
    block has returned. *)
Lemma prepare_sparse_call env model_config st st1 r new sparse_method :
  prepare env model_config st = (st1, r) →
  calls st1 = calls st ++ new →
  CallGetSparseConfig sparse_method ∈ new →
  ∀ quant_method, quantization model_config = Some quant_method →
    gate_passed env Quantization model_config quant_method.
Proof.
  unfold prepare. rewrite bind_run.
  destruct (_get_model_architecture _ _ _) as [st0 r0] eqn:E0.
  apply get_model_architecture_registry_calls in E0 as (new0 & -> & Hr0).
  assert (CallGetSparseConfig sparse_method ∉ new0) as Hn0.
  { intros Hin. rewrite Forall_forall in Hr0. by apply Hr0 in Hin. }
  destruct r0 as [cls|e].
  2:{ intros [= <- <-] Hcalls Hin.
      rewrite calls_record_calls in Hcalls.
      apply app_inv_head in Hcalls as <-. done. }
  rewrite bind_run.
  destruct (quantization_block _ _ _ _) as [st1' r1] eqn:E1.
  destruct r1 as [lm1|e].
  - apply quantization_block_ok in E1.
    intros _ _ _ quant_method Hq. rewrite Hq in E1. by destruct E1.
  - apply quantization_block_no_sparse_call in E1 as (new1 & -> & Hn1).
    intros [= <- <-] Hcalls Hin.
    rewrite record_calls_app, calls_record_calls in Hcalls.
    apply app_inv_head in Hcalls as <-.
    apply elem_of_app in Hin as [Hin|Hin]; [done|].
    rewrite Forall_forall in Hn1. by apply Hn1 in Hin.
Qed.

(** X4: the quantization path comes first: [get_model] asks for the
    sparsity configuration only if no quantization method is configured
    or the quantization configuration was loaded and passed its gate. *)
Theorem get_model_sparsity_after_quantization
    env model_config lora_config st st' r new sparse_method :
  get_model env model_config lora_config st = (st', r) →
  calls st' = calls st ++ new →
  CallGetSparseConfig sparse_method ∈ new →
  ∀ quant_method, quantization model_config = Some quant_method →
    gate_passed env Quantization model_config quant_method.
Proof.
  intros Hrun Hcalls Hin.
  apply get_model_cases in Hrun
    as [(e & Hp & _)|(cls & lm & st1 & rb & Hp & Hb & _)].
  - exact (prepare_sparse_call _ _ _ _ _ _ _ Hp Hcalls Hin).
  - apply prepare_ok in Hp as (_ & Hgates & _).
    intros quant_method Hq. by apply (Hgates Quantization).
Qed.

(** What a call of the model class in a run of [get_model] tells. *)
Lemma get_model_model_class_call env model_config lora_config st st' r new
    cls lm lora_arg :
  get_model env model_config lora_config st = (st', r) →
  calls st' = calls st ++ new →
  CallModelClass cls lm lora_arg ∈ new →
  ∃ st1 newp,
    prepare env model_config st = (st1, Ok (cls, lm)) ∧
    lora_arg = lora_argument env cls lora_config ∧
    Forall (λ c, is_build_call c = false) newp ∧
    gate_evaluations newp = configured_methods model_config ∧
    (new = newp ++ [CallModelClass cls lm lora_arg] ∨
     new = newp ++ [CallModelClass cls lm lora_arg;
                    weights_call model_config]).
Proof.
  intros Hrun Hcalls Hin.
  apply get_model_cases in Hrun
    as [(e & Hp & _)|(cls1 & lm1 & st1 & rb & Hp & Hb & _)].
  - apply prepare_frame in Hp as (newp & -> & Hbp & _).
    rewrite calls_record_calls in Hcalls.
    apply app_inv_head in Hcalls as <-.
    rewrite Forall_forall in Hbp. by apply Hbp in Hin.
  - pose proof (prepare_ok _ _ _ _ _ _ Hp)
      as (_ & _ & _ & newp & -> & Hbp & Hgp).
    apply build_block_calls in Hb as (newb & Hcb & Hcases & _).
    rewrite Hcb, calls_record_calls, <-app_assoc in Hcalls.
    apply app_inv_head in Hcalls as <-.
    assert (CallModelClass cls lm lora_arg ∈ newb) as Hinb.
    { apply elem_of_app in Hin as [Hin|Hin]; [|done].
      rewrite Forall_forall in Hbp. by apply Hbp in Hin. }
    assert (CallModelClass cls lm lora_arg =
            CallModelClass cls1 lm1
              (lora_argument env cls1 lora_config)) as Heq.
    { destruct Hcases as [-> | [-> | ->]].
      - by apply elem_of_nil in Hinb.
      - by apply list_elem_of_singleton in Hinb.
      - apply elem_of_cons in Hinb as [Hinb|Hinb]; [done|].
        apply list_elem_of_singleton in Hinb.
        unfold weights_call in Hinb. by case_bool_decide. }
    injection Heq as -> -> ->.
    exists (record_calls st newp), newp.
    split; [done|]. split; [done|]. split; [done|]. split; [done|].
    destruct Hcases as [-> | [-> | ->]];
      [by apply elem_of_nil in Hinb | by left | by right].
Qed.

(** X5: the model class that [get_model] calls is registered under one
    of the configured architecture names; the linear method it gets is
    the one of the sparsity configuration when a sparsity method is
    configured, else the one of the quantization configuration, else
    none; it gets the LoRA configuration as a third argument exactly
    when the class supports LoRA. *)
Theorem get_model_model_class_arguments
    env model_config lora_config st st' r new cls lm lora_arg :
  get_model env model_config lora_config st = (st', r) →
  calls st' = calls st ++ new →
  CallModelClass cls lm lora_arg ∈ new →
  (∃ arch,
     arch ∈ default [] (architectures (hf_config model_config)) ∧
     load_model_cls env arch = Some cls) ∧
  lm = selected_linear_method env model_config ∧
  lora_arg = (if default false (supports_lora env cls)
              then Some lora_config else None).
Proof.
  intros Hrun Hcalls Hin.
  destruct (get_model_model_class_call _ _ _ _ _ _ _ _ _ _
              Hrun Hcalls Hin) as (st1 & newp & Hp & -> & _).
  apply prepare_ok in Hp as (Hcls & _ & -> & _). done.
Qed.

(** X6: the model class is called only after every configured method
    has had its configuration loaded and has passed its gate, and a run
    that calls it has read the capability once per configured method. *)
Theorem get_model_builds_after_gates
    env model_config lora_config st st' r new cls lm lora_arg :
  get_model env model_config lora_config st = (st', r) →
  calls st' = calls st ++ new →
  CallModelClass cls lm lora_arg ∈ new →
  (∀ kind method,
     configured_method kind model_config = Some method →
     gate_passed env kind model_config method) ∧
  gate_evaluations new = configured_methods model_config.
Proof.
  intros Hrun Hcalls Hin.
  destruct (get_model_model_class_call _ _ _ _ _ _ _ _ _ _
              Hrun Hcalls Hin) as (st1 & newp & Hp & -> & _ & Hgp & Hnew).
  apply prepare_ok in Hp as (_ & Hgates & _). split; [exact Hgates|].
  destruct Hnew as [-> | ->];
    rewrite gate_evaluations_app, Hgp, gate_evaluations_none; try lia;
    repeat constructor; unfold weights_call; by case_bool_decide.
Qed.

(** X7: a LoRA configuration for a model class that does not support
    LoRA makes [get_model] raise the LoRA error without calling the
    class; as the error is raised inside the [with] block, the default
    dtype stays at the model dtype. *)
Theorem get_model_lora_not_supported
    env model_config lora_config st st1 model_class lm :
  prepare env model_config st = (st1, Ok (model_class, lm)) →
  default false (supports_lora env model_class) = false →
  is_Some lora_config →
  get_model env model_config lora_config st =
    ({| default_dtype := dtype model_config;
        default_device := default_device st1;
        calls := calls st1 |},
     Raise (ValueError (LoRANotSupported (class_name env model_class)))).
Proof.
  intros Hp Hsup Hlora.
  rewrite get_model_prepare, bind_run, Hp, bind_run, build_block_run.
  unfold lora_rejected. rewrite Hsup, bool_decide_eq_true_2 by done.
  simpl. unfold inside_block. by rewrite app_nil_r.
Qed.

(** X8: when [get_model] returns, it returns the model in evaluation
    mode that the class of a registered configured architecture built
    under the model dtype as default dtype and [cuda] as default device,
    with the selected linear method, and whose weights were then filled
    (by the dummy initialisation for the [dummy] load format, by the
    weight loader otherwise). *)
Theorem get_model_returns env model_config lora_config st st' net :
  get_model env model_config lora_config st = (st', Ok net) →
  ∃ cls built filled,
    (∃ arch,
       arch ∈ default [] (architectures (hf_config model_config)) ∧
       load_model_cls env arch = Some cls) ∧
    instantiate env cls (dtype model_config) "cuda"
      (hf_config model_config)
      (selected_linear_method env model_config)
      (if default false (supports_lora env cls)
       then Some lora_config else None) = Ok built ∧
    (if bool_decide (load_format model_config = "dummy")
     then initialize_dummy_weights env built
     else load_weights env built (model model_config)
            (download_dir model_config) (load_format model_config)
            (revision model_config)) = Ok filled ∧
    net = eval env filled.
Proof.
  intros Hrun.
  apply get_model_cases in Hrun
    as [(e & _ & [=])|(cls & lm & st1 & rb & Hp & Hb & Hr)].
  apply prepare_ok in Hp as (Hcls & _ & -> & _).
  rewrite build_block_run in Hb.
  destruct (lora_rejected _ _ _); [by injection Hb as _ <-|].
  unfold lora_argument, fill_weights in Hb.
  destruct (instantiate _ _ _ _ _ _ _) as [built|e] eqn:Hi;
    [|by injection Hb as _ <-].
  match type of Hb with
  | context [match ?f with Ok _ => _ | Raise _ => _ end] =>
      destruct f as [filled|e] eqn:Hf
  end; [|by injection Hb as _ <-].
  injection Hb as _ <-. injection Hr as ->.
  by exists cls, built, filled.
Qed.

(** X9: in a run of [get_model] the model class is called at most once
    and after everything else; the weights are filled at most once,
    right after it and last, by the dummy initialisation exactly for the
    [dummy] load format; a run that returns has done both. *)
Theorem get_model_build_calls env model_config lora_config st st' r new :
  get_model env model_config lora_config st = (st', r) →
  calls st' = calls st ++ new →
  ∃ before,
    Forall (λ c, is_build_call c = false) before ∧
    (new = before ∨
     ∃ cls lm lora_arg,
       new = before ++ [CallModelClass cls lm lora_arg] ∨
       new = before ++
             [CallModelClass cls lm lora_arg;
              if bool_decide (load_format model_config = "dummy")
              then CallInitializeDummyWeights else CallLoadWeights]) ∧
    (∀ net, r = Ok net →
       ∃ cls lm lora_arg,
         new = before ++
               [CallModelClass cls lm lora_arg;
                if bool_decide (load_format model_config = "dummy")
                then CallInitializeDummyWeights else CallLoadWeights]).
Proof.
  intros Hrun Hcalls.
  apply get_model_cases in Hrun
    as [(e & Hp & ->)|(cls & lm & st1 & rb & Hp & Hb & ->)].
  - apply prepare_frame in Hp as (newp & -> & Hbp & _).
    rewrite calls_record_calls in Hcalls.
    apply app_inv_head in Hcalls as <-.
    exists newp. split; [done|]. split; [by left|]. by intros net [=].
  - apply prepare_frame in Hp as (newp & -> & Hbp & _).
    apply build_block_calls in Hb as (newb & Hcb & Hcases & Hok).
    rewrite Hcb, calls_record_calls, <-app_assoc in Hcalls.
    apply app_inv_head in Hcalls as <-.
    exists newp. split; [done|]. split.
    + destruct Hcases as [-> | [-> | ->]].
      * left. by rewrite app_nil_r.
      * right. eexists _, _, _. by left.
      * right. eexists _, _, _. by right.
    + intros net Hr. destruct rb as [net'|e]; [|done].
      rewrite Hok by (by eexists). by eexists _, _, _.
Qed.

(** X10: [get_model] leaves the default device as it found it, whether
    it returns or raises. *)
Theorem get_model_default_device env model_config lora_config st st' r :
  get_model env model_config lora_config st = (st', r) →
  default_device st' = default_device st.
Proof.
  intros Hrun.
  apply get_model_cases in Hrun
    as [(e & Hp & _)|(cls & lm & st1 & rb & Hp & Hb & _)].
  - by apply prepare_frame in Hp as (newp & -> & _).
  - apply prepare_frame in Hp as (newp & -> & _).
    by apply build_block_frame in Hb as (_ & -> & _).
Qed.

(** X11: the contract of [_set_default_torch_dtype] for any body: the
    body runs with the given dtype as default; when it returns, the
    default dtype is the one from before the block, whatever the body
    did to it, and the rest of the state is as the body left it; when
    it raises, the whole state, default dtype included, is as the body
    left it. *)
Theorem set_default_torch_dtype_contract {A} (d : TorchDtype)
    (body : M A) st st' (r : result A) :
  with_generator (_set_default_torch_dtype d) body st = (st', r) →
  ∃ st2,
    body {| default_dtype := d; default_device := default_device st;
            calls := calls st |} = (st2, r) ∧
    match r with
    | Ok _ =>
        st' = {| default_dtype := default_dtype st;
                 default_device := default_device st2;
                 calls := calls st2 |}
    | Raise _ => st' = st2
    end.
Proof.
  unfold with_generator, _set_default_torch_dtype. simpl.
  unfold torch_get_default_dtype, torch_set_default_dtype,
    mbind, M_bind, mret, M_ret. simpl.
  destruct (body _) as [st2 [a|e]]; intros [= <- <-]; by exists st2.
Qed.
End GetModelMore.

Section ApplyWeightsMore.
Context {R : Type} {SR : Scalar R} {MW : MagicWand R}.
Implicit Types (self : SparseW16A16LinearMethod)
               (weights : gmap string LazyCompressedParameter)
               (w : LazyCompressedParameter) (x : Tensor R)
               (bias : option (Tensor R)).

(** X15: on the semi-structured branch the last dimension of the output
    is the row count of the encapsulated sparse tensor, not [w.shape[0]]:
    every output has the leading dimensions of the input followed by
    [w_encap.shape[0]], whatever the shape recorded on the weight and
    whatever [compress_transposed] says. *)
Theorem apply_weights_semi_structured_shape
    self weights w c w_encap n rest x bias out :
  storage_format_cls self = SparseSemiStructuredStorageFormat →
  weights !! "weight" = Some w →
  payload_compressed w c →
  encapsulated_torch_sparse_tensor c = Ok w_encap →
  sparse_shape w_encap = n :: rest →
  apply_weights self weights x bias = Ok out →
  shape out = removelast (shape x) ++ [n].
Proof.
  intros Hcls Hw Hp He Hn.
  rewrite (apply_weights_on_compressed _ _ _ _ _ _ Hw Hp), Hcls.
  rewrite bool_decide_eq_true_2 by reflexivity.
  destruct (py_assert _); simpl; [|discriminate].
  rewrite He. simpl. unfold shape_index. rewrite Hn. simpl.
  result_cases. apply reshape_shape.
Qed.

(** X16: [create_weights] returns a dictionary with the single key
    [weight]; the parameter has the dtype and the storage format class
    it was asked for and the attributes [input_dim = 1] and
    [output_dim = 0]; the full sizes [input_size] and [output_size] have
    no influence on the result. *)
Theorem create_weights_only_weight self
    (input_size_per_partition output_size_per_partition : nat)
    (input_size output_size input_size' output_size' : nat)
    (params_dtype : TorchDtype) :
  let weights :=
    create_weights self input_size_per_partition output_size_per_partition
      input_size output_size params_dtype in
  dom weights = {[ "weight" ]} ∧
  (∀ key w, weights !! key = Some w →
     key = "weight" ∧
     w_dtype w = params_dtype ∧
     w_storage_format_cls w = storage_format_cls self ∧
     w_attrs w !! "input_dim" = Some 1 ∧
     w_attrs w !! "output_dim" = Some 0) ∧
  weights =
    create_weights self input_size_per_partition output_size_per_partition
      input_size' output_size' params_dtype.
Proof.
  intros weights. subst weights. unfold create_weights.
  split; [apply dom_singleton_L|]. split; [|reflexivity].
  intros key w [<- <-]%lookup_singleton_Some. simpl.
  split; [done|]. split; [done|]. split; [done|].
  split; vm_compute; reflexivity.
Qed.

(** X17: without a [weight] entry in the dictionary, [apply_weights]
    raises [KeyError] before it looks at the input or the bias. *)
Theorem apply_weights_missing_weight self weights x bias :
  weights !! "weight" = None →
  apply_weights self weights x bias = Raise (KeyError "weight").
Proof.
  intros Hw. unfold apply_weights, getitem. rewrite Hw. reflexivity.
Qed.
End ApplyWeightsMore.

(** ** The further properties on the reference instances *)

(** X1 where the second name is the registered one. *)
Lemma get_model_architecture_result_witness :
  (∃ arch,
     arch ∈ ["Foo"; "OPTForCausalLM"] ∧
     load_model_cls demo_env arch = Some "OPT") ∧
  default_dtype demo_world = Float32.
Proof.
  destruct (get_model_architecture_result demo_env
              {| architectures := Some ["Foo"; "OPTForCausalLM"] |}
              demo_world
              (record_calls demo_world
                 [CallLoadModelCls "Foo"; CallLoadModelCls "OPTForCausalLM"])
              (Ok "OPT")) as (Hcls & Hdt & _).
  - vm_compute. reflexivity.
  - split; [exact Hcls|reflexivity].
Defined.

(** X2 with two methods configured that are never looked at. *)
Lemma get_model_unknown_architecture_witness :
  get_model demo_env
    (demo_model_config ["Foo"] (Some "awq") (Some "future") Float32)
    None demo_world =
    (record_calls demo_world [CallLoadModelCls "Foo"; CallGetSupportedArchs],
     Raise (ValueError (ArchitecturesNotSupported ["Foo"]
                          ["LlamaForCausalLM"; "OPTForCausalLM"]))).
Proof.
  apply (get_model_unknown_architecture demo_env
           (demo_model_config ["Foo"] (Some "awq") (Some "future") Float32)
           None demo_world).
  by repeat constructor.
Defined.

(** X3 on the sparsity path, with an unknown sparsity method after the
    quantization gate has passed. *)
Lemma get_model_config_error_witness :
  ∃ new,
    get_model demo_env
      (demo_model_config ["LlamaForCausalLM"] (Some "awq") (Some "2:4")
         Float16)
      None demo_world =
      (record_calls demo_world new,
       Raise (ExternalError "unknown sparsity method")) ∧
    Forall (λ c, is_build_call c = false) new ∧
    last new = Some (CallGetSparseConfig "2:4").
Proof.
  apply (get_model_config_error demo_env
           (demo_model_config ["LlamaForCausalLM"] (Some "awq") (Some "2:4")
              Float16)
           None demo_world
           (record_calls demo_world [CallLoadModelCls "LlamaForCausalLM"])
           "Llama" Sparsity "2:4").
  - vm_compute. reflexivity.
  - reflexivity.
  - vm_compute. reflexivity.
  - intros _ quant_method [= <-].
    exists (demo_config 75 [Float16] "AWQLinearMethod"), 8%Z, 0%Z.
    split; [vm_compute; reflexivity|]. split; [reflexivity|].
    split; [simpl; lia|]. apply list_elem_of_here.
Defined.

(** X4, X5, X6, X8, X9 and X10 on a run with both methods configured. *)
Lemma get_model_sparsity_after_quantization_witness :
  gate_passed demo_env Quantization
    (demo_model_config ["LlamaForCausalLM"] (Some "awq")
       (Some "sparse_w16a16") Float16)
    "awq".
Proof.
  eapply (get_model_sparsity_after_quantization demo_env
            (demo_model_config ["LlamaForCausalLM"] (Some "awq")
               (Some "sparse_w16a16") Float16)
            None demo_world _ _ _ "sparse_w16a16").
  - vm_compute. reflexivity.
  - simpl. reflexivity.
  - do 3 apply list_elem_of_further. apply list_elem_of_here.
  - reflexivity.
Defined.

Lemma get_model_model_class_arguments_witness :
  let model_config :=
    demo_model_config ["LlamaForCausalLM"] (Some "awq")
      (Some "sparse_w16a16") Float16 in
  (∃ arch, arch ∈ ["LlamaForCausalLM"] ∧
           load_model_cls demo_env arch = Some "Llama") ∧
  Some "SparseW16A16LinearMethod" =
    selected_linear_method demo_env model_config ∧
  Some (None : option unit) =
    (if default false (supports_lora demo_env "Llama")
     then Some None else None).
Proof.
  intros model_config.
  eapply (get_model_model_class_arguments demo_env model_config None
            demo_world).
  - vm_compute. reflexivity.
  - simpl. reflexivity.
  - do 5 apply list_elem_of_further. apply list_elem_of_here.
Defined.

Lemma get_model_builds_after_gates_witness :
  let model_config :=
    demo_model_config ["LlamaForCausalLM"] (Some "awq")
      (Some "sparse_w16a16") Float16 in
  gate_passed demo_env Sparsity model_config "sparse_w16a16" ∧
  gate_evaluations
    [CallLoadModelCls "LlamaForCausalLM";
     CallGetQuantConfig "awq"; CallGetDeviceCapability;
     CallGetSparseConfig "sparse_w16a16"; CallGetDeviceCapability;
     CallModelClass "Llama" (Some "SparseW16A16LinearMethod") (Some None);
     (CallLoadWeights : Call string unit string)] = 2.
Proof.
  intros model_config.
  destruct (get_model_builds_after_gates demo_env model_config None
              demo_world
              (record_calls demo_world
                 [CallLoadModelCls "LlamaForCausalLM";
                  CallGetQuantConfig "awq"; CallGetDeviceCapability;
                  CallGetSparseConfig "sparse_w16a16"; CallGetDeviceCapability;
                  CallModelClass "Llama" (Some "SparseW16A16LinearMethod")
                    (Some None);
                  CallLoadWeights])
              (Ok "Llama/SparseW16A16LinearMethod/loaded/eval")
              [CallLoadModelCls "LlamaForCausalLM";
               CallGetQuantConfig "awq"; CallGetDeviceCapability;
               CallGetSparseConfig "sparse_w16a16"; CallGetDeviceCapability;
               CallModelClass "Llama" (Some "SparseW16A16LinearMethod")
                 (Some None);
               CallLoadWeights]
              "Llama" (Some "SparseW16A16LinearMethod") (Some None))
    as [Hgates Hcount].
  - vm_compute. reflexivity.
  - simpl. reflexivity.
  - do 5 apply list_elem_of_further. apply list_elem_of_here.
  - split; [by apply (Hgates Sparsity)|exact Hcount].
Defined.

(** X7: the OPT class of the reference registry has no LoRA support. *)
Lemma get_model_lora_not_supported_witness :
  get_model demo_env (demo_model_config ["OPTForCausalLM"] None None Float16)
    (Some tt) demo_world =
    ({| default_dtype := Float16; default_device := "cpu";
        calls := [CallLoadModelCls "OPTForCausalLM"] |},
     Raise (ValueError (LoRANotSupported "OPT"))).
Proof.
  apply (get_model_lora_not_supported demo_env
           (demo_model_config ["OPTForCausalLM"] None None Float16)
           (Some tt) demo_world
           (record_calls demo_world [CallLoadModelCls "OPTForCausalLM"])
           "OPT" None).
  - vm_compute. reflexivity.
  - reflexivity.
  - by eexists.
Defined.

Lemma get_model_returns_witness :
  let model_config :=
    demo_model_config ["LlamaForCausalLM"] None (Some "sparse_w16a16")
      Float16 in
  ∃ cls built filled,
    (∃ arch, arch ∈ ["LlamaForCausalLM"] ∧
             load_model_cls demo_env arch = Some cls) ∧
    instantiate demo_env cls Float16 "cuda" (hf_config model_config)
      (selected_linear_method demo_env model_config)
      (if default false (supports_lora demo_env cls)
       then Some None else None) = Ok built ∧
    load_weights demo_env built "model" None "auto" None = Ok filled ∧
    "Llama/SparseW16A16LinearMethod/loaded/eval" = eval demo_env filled.
Proof.
  intros model_config.
  eapply (get_model_returns demo_env model_config None demo_world).
  vm_compute. reflexivity.
Defined.

Lemma get_model_build_calls_witness :
  let model_config :=
    demo_model_config ["OPTForCausalLM"] (Some "awq") None Float16 in
  ∃ before,
    Forall (λ c, is_build_call c = false) before ∧
    ([CallLoadModelCls "OPTForCausalLM"; CallGetQuantConfig "awq";
      CallGetDeviceCapability;
      CallModelClass "OPT" (Some "AWQLinearMethod") None] = before ∨
     ∃ cls lm (lora_arg : option (option unit)),
       [CallLoadModelCls "OPTForCausalLM"; CallGetQuantConfig "awq";
        CallGetDeviceCapability;
        CallModelClass "OPT" (Some "AWQLinearMethod") None] =
         before ++ [CallModelClass cls lm lora_arg] ∨
       [CallLoadModelCls "OPTForCausalLM"; CallGetQuantConfig "awq";
        CallGetDeviceCapability;
        CallModelClass "OPT" (Some "AWQLinearMethod") None] =
         before ++ [CallModelClass cls lm lora_arg; CallLoadWeights]).
Proof.
  intros model_config.
  destruct (get_model_build_calls demo_env model_config None demo_world
              {| default_dtype := Float16; default_device := "cpu";
                 calls := [CallLoadModelCls "OPTForCausalLM";
                           CallGetQuantConfig "awq"; CallGetDeviceCapability;
                           CallModelClass "OPT" (Some "AWQLinearMethod")
                             None] |}
              (Raise (ExternalError "out of memory"))
              [CallLoadModelCls "OPTForCausalLM"; CallGetQuantConfig "awq";
               CallGetDeviceCapability;
               CallModelClass "OPT" (Some "AWQLinearMethod") None])
    as (before & Hb & Hcases & _).
  - vm_compute. reflexivity.
  - reflexivity.
  - exists before. split; [exact Hb|exact Hcases].
Defined.

Lemma get_model_default_device_witness :
  default_device
    (get_model demo_env
       (demo_model_config ["OPTForCausalLM"] None None Float16)
       None demo_world).1 = "cpu".
Proof.
  apply (get_model_default_device demo_env
           (demo_model_config ["OPTForCausalLM"] None None Float16)
           None demo_world _ (Raise (ExternalError "out of memory"))).
  vm_compute. reflexivity.
Defined.

(** X11 with a body that itself changes the default dtype. *)
Lemma set_default_torch_dtype_contract_witness :
  ∃ st2,
    torch_set_default_dtype BFloat16
      {| default_dtype := Float16; default_device := "cpu"; calls := [] |} =
      (st2, Ok tt) ∧
    demo_world =
      {| default_dtype := Float32; default_device := default_device st2;
         calls := calls st2 |}.
Proof.
  apply (set_default_torch_dtype_contract Float16
           (torch_set_default_dtype BFloat16) demo_world demo_world (Ok tt)).
  reflexivity.
Defined.

(** X12 to X15 and X17 on the reference kernels. *)
Lemma apply_weights_both_payloads_witness :
  apply_weights (demo_method SparseSemiStructuredStorageFormat)
    (demo_weights
       (demo_weight SparseSemiStructuredStorageFormat false [2; 3]
          (Some (iota [2; 3])) (Some (iota [2; 3]))))
    (iota [4; 3]) None = Raise AssertionError.
Proof.
  apply (apply_weights_both_payloads _ _
           (demo_weight SparseSemiStructuredStorageFormat false [2; 3]
              (Some (iota [2; 3])) (Some (iota [2; 3])))
           (iota [2; 3]) (iota [2; 3])).
  - vm_compute. reflexivity.
  - reflexivity.
  - reflexivity.
Defined.

Lemma apply_weights_be_gemm_returns_witness :
  let payload := mkTensor [3; 2] [0; 3; 1; 4; 2; 5]%Z in
  apply_weights (demo_method SparseBEGemmStorageFormat)
    (demo_weights
       (demo_weight SparseBEGemmStorageFormat true [2; 3] None (Some payload)))
    (iota [2; 2; 3]) None =
    Ok (mkTensor [2; 2; 2] [5; 14; 14; 50; 23; 86; 32; 122]%Z).
Proof.
  intros payload.
  apply (apply_weights_be_gemm_returns
           (demo_method SparseBEGemmStorageFormat) _
           (demo_weight SparseBEGemmStorageFormat true [2; 3] None
              (Some payload))
           payload 2 [3] [2; 2] 3 (iota [2; 2; 3])
           (mkTensor [4; 2] [5; 14; 14; 50; 23; 86; 32; 122]%Z)).
  - reflexivity.
  - vm_compute. reflexivity.
  - split; reflexivity.
  - reflexivity.
  - reflexivity.
  - reflexivity.
  - discriminate.
  - vm_compute. reflexivity.
  - reflexivity.
Defined.

Lemma apply_weights_uncompressed_returns_witness :
  ∃ out,
    apply_weights (demo_method SparseBEGemmStorageFormat)
      (demo_weights
         (demo_weight SparseBEGemmStorageFormat true [4; 8]
            (Some (iota [4; 8])) None))
      (iota [2; 8]) None = Ok out ∧
    shape out = [2; 4].
Proof.
  apply (apply_weights_uncompressed_returns
           (demo_method SparseBEGemmStorageFormat) _
           (demo_weight SparseBEGemmStorageFormat true [4; 8]
              (Some (iota [4; 8])) None)
           (iota [4; 8]) 4 8 (iota [2; 8])).
  - vm_compute. reflexivity.
  - split; reflexivity.
  - reflexivity.
  - reflexivity.
Defined.

(** X15 with a weight whose recorded shape differs from the shape of the
    encapsulated tensor: the output follows the encapsulated tensor. *)
Lemma apply_weights_semi_structured_shape_witness :
  ∃ out,
    apply_weights (demo_method SparseSemiStructuredStorageFormat)
      (demo_weights
         (demo_weight SparseSemiStructuredStorageFormat false [7; 16]
            None (Some (iota [16; 16]))))
      (iota [5; 16]) None = Ok out ∧
    shape out = [5; 16].
Proof.
  eexists. split.
  - vm_compute. reflexivity.
  - apply (apply_weights_semi_structured_shape
             (demo_method SparseSemiStructuredStorageFormat)
             (demo_weights
                (demo_weight SparseSemiStructuredStorageFormat false [7; 16]
                   None (Some (iota [16; 16]))))
             (demo_weight SparseSemiStructuredStorageFormat false [7; 16]
                None (Some (iota [16; 16])))
             (iota [16; 16]) (iota [16; 16]) 16 [16] (iota [5; 16]) None).
    + reflexivity.
    + vm_compute. reflexivity.
    + split; reflexivity.
    + reflexivity.
    + reflexivity.
    + vm_compute. reflexivity.
Defined.

Lemma apply_weights_missing_weight_witness :
  apply_weights (MW := dense_kernels)
    (demo_method SparseBEGemmStorageFormat) ∅ (iota [2; 8])
    (Some (iota [4])) = Raise (KeyError "weight").
Proof.
  apply (apply_weights_missing_weight (MW := dense_kernels)).
  reflexivity.
Defined.
